(** * The devnet orchestrator [Stack.Run] of package [e2e]

    A shallow embedding of [Stack.Run] and [Stack.runMonomer].  The
    orchestrator is a straight-line pipeline of calls into collaborators
    (process control, RPC clients, the L2 node, the op-chain-ops genesis
    library).  Every such call is answered by a [World]; the pipeline
    itself, its early returns, the values it threads from one stage to the
    next and the order of its steps are those of the Go source. *)

From Stdlib Require Import String List ZArith Bool Lia.
Import ListNotations.
Open Scope string_scope.

(* ================================================================== *)
(** ** Values *)

(** A Go [error]: [None] is [nil], [Some msg] an error whose [Error()]
    text is [msg]. *)
Definition error : Type := option string.

(** A Go pair [(v, err)] in which exactly one side is meaningful. *)
Inductive result (A : Type) : Type :=
| Ok (a : A)
| Err (msg : string).
Arguments Ok {A} a.
Arguments Err {A} msg.

(** [fmt.Errorf(prefix + "%v", err)]: always a non-nil error. *)
Definition Errorf (prefix cause : string) : error := Some (prefix ++ cause).

(** [const oneETH = uint64(1e18)] *)
Definition oneETH : Z := 10 ^ 18.
Definition uint64_max : Z := 2 ^ 64 - 1.

(** Modelled from the spec: [url.URL] of package [e2e/url], which is not
    among the sources.  An endpoint reports its textual form for command
    lines; it is held here as the three texts the orchestrator reads from
    it ([String()], [Host()], [Port()]).  Its reachability test is an effect
    and lives in [World]. *)
Record URL : Type := mkURL {
  url_String : string;
  url_Host : string;
  url_Port : string
}.

(** The capability-set listener: an identity on which callbacks are
    delivered. *)
Variant EventListener : Type := Listener_id (n : nat).

(** [time.Duration]: int64 nanoseconds. *)
Definition Duration : Type := Z.

Record Stack : Type := mkStack {
  anvilURL : URL;
  monomerEngineURL : URL;
  monomerCometURL : URL;
  opNodeURL : URL;
  contractsRootDir : string;
  eventListener : EventListener;
  l1BlockTime : Duration
}.

Definition New (anvilURL monomerEngineURL monomerCometURL opNodeURL : URL)
    (contractsRootDir : string) (l1BlockTime : Duration)
    (eventListener : EventListener) : Stack :=
  {| anvilURL := anvilURL;
     monomerEngineURL := monomerEngineURL;
     monomerCometURL := monomerCometURL;
     opNodeURL := opNodeURL;
     contractsRootDir := contractsRootDir;
     eventListener := eventListener;
     l1BlockTime := l1BlockTime |}.

(** [exec.Cmd] as built by [exec.CommandContext(ctx, name, arg...)]. *)
Record Cmd : Type := CommandContext {
  cmd_name : string;
  cmd_args : list string
}.

Fixpoint strings_eqb (l m : list string) : bool :=
  match l, m with
  | [], [] => true
  | a :: l', b :: m' => String.eqb a b && strings_eqb l' m'
  | _, _ => false
  end.

Definition Cmd_eqb (c d : Cmd) : bool :=
  String.eqb (cmd_name c) (cmd_name d)
  && strings_eqb (cmd_args c) (cmd_args d).

(** Handles and plain data owned by the collaborators. *)
Definition RPCClient : Type := nat.
Record AnvilClient : Type := NewAnvilClient { anvil_rpc : RPCClient }.
Record MonomerClient : Type := NewMonomerClient { monomer_rpc : RPCClient }.

Definition Address : Type := Z.
Definition Hash : Type := Z.

Record PublicKey : Type := mkPublicKey { X : Z; Y : Z }.
Record PrivateKey : Type := mkPrivateKey { PublicKey_of : PublicKey; D : Z }.

Record Block : Type := mkBlock {
  block_Number : Z;
  block_Time : Z;
  block_Hash : Hash
}.

Definition NetListener : Type := nat.
Definition MemDB : Type := nat.
Definition CometMemDB : Type := nat.
Definition App : Type := nat.
Definition AppState : Type := nat.
Definition RollupCfg : Type := nat.

(** [monomer.ChainID], an unsigned 64-bit number. *)
Definition ChainID : Type := Z.
Definition monomer_ChainID (u : Z) : ChainID := u.

Record Genesis : Type := mkGenesis {
  AppState_of : AppState;
  ChainID_of : ChainID;
  Time_of : Z
}.

Variant TxAdapter : Type :=
| AdaptCosmosTxsToEthTxs
| AdaptPayloadTxsToCosmosTxs.

(** The node built by [node.New], identified by the arguments it was given,
    in the order of the call. *)
Record Node : Type := node_New {
  n_app : App;
  n_genesis : Genesis;
  n_engineHTTP : NetListener;
  n_engineWS : NetListener;
  n_cometListener : NetListener;
  n_blockdb : MemDB;
  n_mempooldb : MemDB;
  n_txdb : CometMemDB;
  n_adaptCosmosTxsToEthTxs : TxAdapter;
  n_adaptPayloadTxsToCosmosTxs : TxAdapter;
  n_eventListener : EventListener
}.

(** [genesis.L1Deployments]: the role the orchestrator reads, and the
    remaining role-name/address pairs. *)
Record L1Deployments : Type := mkL1Deployments {
  L2OutputOracleProxy : Address;
  other_roles : list (string * Address)
}.

(** [genesis.DeployConfig]: the fields this repository reads or writes, and
    the deployment addresses injected by [SetDeployments]. *)
Record DeployConfig : Type := mkDeployConfig {
  L1ChainID : Z;
  L2ChainID : Z;
  L1BlockTime : Z;
  L2BlockTime : Z;
  SequencerWindowSize : Z;
  L1UseClique : bool;
  FundDevAccounts : bool;
  L1GenesisBlockTimestamp : Z;
  deployment_addresses : list (string * Address)
}.

Definition set_L1ChainID (v : Z) (d : DeployConfig) : DeployConfig :=
  {| L1ChainID := v;
     L2ChainID := L2ChainID d;
     L1BlockTime := L1BlockTime d;
     L2BlockTime := L2BlockTime d;
     SequencerWindowSize := SequencerWindowSize d;
     L1UseClique := L1UseClique d;
     FundDevAccounts := FundDevAccounts d;
     L1GenesisBlockTimestamp := L1GenesisBlockTimestamp d;
     deployment_addresses := deployment_addresses d |}.

Definition set_L2ChainID (v : Z) (d : DeployConfig) : DeployConfig :=
  {| L1ChainID := L1ChainID d;
     L2ChainID := v;
     L1BlockTime := L1BlockTime d;
     L2BlockTime := L2BlockTime d;
     SequencerWindowSize := SequencerWindowSize d;
     L1UseClique := L1UseClique d;
     FundDevAccounts := FundDevAccounts d;
     L1GenesisBlockTimestamp := L1GenesisBlockTimestamp d;
     deployment_addresses := deployment_addresses d |}.

(** The dependent protocol stack built by [NewOPStack], identified by its
    arguments in the order of the call. *)
Record OPStack : Type := NewOPStack {
  op_l1URL : URL;
  op_engineURL : URL;
  op_nodeURL : URL;
  op_l2OutputOracle : Address;
  op_privKey : PrivateKey;
  op_rollupConfig : RollupCfg;
  op_eventListener : EventListener
}.

(** The closure handed to [env.Go] in [Stack.Run]: it captures the
    simulator command and the stack's listener. *)
Variant Task : Type :=
| MonitorAnvil (c : Cmd) (l : EventListener).

(** The [Close] methods registered with [env.DeferErr]. *)
Variant Closer : Type :=
| CloseMemDB (db : MemDB)
| CloseCometMemDB (db : CometMemDB).

(** A callback delivered on the listener. *)
Variant Callback : Type :=
| OnAnvilErr (l : EventListener) (err : error).

(* ================================================================== *)
(** ** Steps of a run *)

(** One entry per step the pipeline performs on something outside itself,
    with the arguments it passed and the answer it got, in program order.
    The two stores into the shared [*DeployConfig] are steps too. *)
Inductive Event : Type :=
| EvLogProcess (name : string) (c : Cmd) (r : error)
| EvStart (c : Cmd) (r : error)
| EvWait (c : Cmd) (r : error)
| EvGo (t : Task)
| EvIsReachable (u : URL) (r : bool)
| EvDialContext (rawurl : string) (r : result RPCClient)
| EvGenerateKey (r : result PrivateKey)
| EvSetBalance (cl : AnvilClient) (a : Address) (amount : Z) (r : error)
| EvBlockByNumber (cl : AnvilClient) (number : option Z) (r : result Block)
| EvListen (network address : string) (r : result NetListener)
| EvNewMemDB (r : MemDB)
| EvCometNewMemDB (r : CometMemDB)
| EvTestappNew (db : MemDB) (chainID : string) (r : result App)
| EvDeferErr (label : string) (f : Closer)
| EvDefaultGenesis (a : App) (r : AppState)
| EvNodeNew (n : Node)
| EvNodeRun (n : Node) (r : error)
| EvGenesisHash (cl : MonomerClient) (r : result Hash)
| EvNewL1Deployments (path : string) (r : result L1Deployments)
| EvNewDeployConfigWithNetwork (network path : string)
    (r : result DeployConfig)
| EvStoreL1ChainID (v : Z)
| EvStoreL2ChainID (v : Z)
| EvSetDeployments (d : DeployConfig) (l : L1Deployments)
| EvRollupConfig (d : DeployConfig) (b : Block) (h : Hash) (n : Z)
    (r : result RollupCfg)
| EvNewOPStack (o : OPStack)
| EvOPStackRun (o : OPStack) (r : error).

Definition Trace : Type := list Event.

(** Pure functions of the libraries the orchestrator formats its
    arguments with. *)
Record Lib : Type := mkLib {
  (** [String] of [exec.Cmd] *)
  cmd_String : Cmd -> string;
  (** [fmt.Sprint(d.Seconds())] for a [time.Duration] [d] *)
  Sprint_Seconds : Duration -> string;
  (** [filepath.Join] *)
  filepath_Join : list string -> string;
  (** [crypto.PubkeyToAddress] *)
  PubkeyToAddress : PublicKey -> Address;
  (** [crypto.FromECDSA] *)
  FromECDSA : PrivateKey -> list Z;
  (** [common.Bytes2Hex] *)
  Bytes2Hex : list Z -> string;
  (** [(monomer.ChainID).String] *)
  ChainID_String : ChainID -> string;
  (** [SetDeployments] of [genesis.DeployConfig], as the value the
      object holds afterwards *)
  SetDeployments : DeployConfig -> L1Deployments -> DeployConfig
}.

(** The answers of everything outside the pipeline.  Each answer may depend
    on all that happened before, so a service may answer the same question
    differently at different times. *)
Record World : Type := mkWorld {
  LogProcess : Trace -> string -> Cmd -> error;
  cmd_Start : Trace -> Cmd -> error;
  cmd_Wait : Trace -> Cmd -> error;
  IsReachable : Trace -> URL -> bool;
  DialContext : Trace -> string -> result RPCClient;
  GenerateKey : Trace -> result PrivateKey;
  SetBalance : Trace -> AnvilClient -> Address -> Z -> error;
  BlockByNumber : Trace -> AnvilClient -> option Z -> result Block;
  net_Listen : Trace -> string -> string -> result NetListener;
  dbm_NewMemDB : Trace -> MemDB;
  cometdb_NewMemDB : Trace -> CometMemDB;
  testapp_New : Trace -> MemDB -> string -> result App;
  DefaultGenesis : Trace -> App -> AppState;
  node_Run : Trace -> Node -> error;
  GenesisHash : Trace -> MonomerClient -> result Hash;
  NewL1Deployments : Trace -> string -> result L1Deployments;
  NewDeployConfigWithNetwork :
    Trace -> string -> string -> result DeployConfig;
  RollupConfig :
    Trace -> DeployConfig -> Block -> Hash -> Z -> result RollupCfg;
  opStack_Run : Trace -> OPStack -> error
}.

(* ================================================================== *)
(** ** The body of a Go function *)

(** A piece of a function body: run in a world after the steps so far, it
    either yields a value and goes on ([inl]) or has executed
    [return e] ([inr]). *)
Definition M (A : Type) : Type := World -> Trace -> (A + error) * Trace.

Definition ret {A : Type} (a : A) : M A := fun _ tr => (inl a, tr).

Definition bind {A B : Type} (m : M A) (k : A -> M B) : M B :=
  fun w tr =>
    match m w tr with
    | (inl a, tr') => k a w tr'
    | (inr e, tr') => (inr e, tr')
    end.

Notation "x <- m ;; k" := (bind m (fun x => k))
  (at level 61, m at next level, right associativity).
Notation "m ;;; k" := (bind m (fun _ => k))
  (at level 61, right associativity).

(** [return e] *)
Definition return_ {A : Type} (e : error) : M A := fun _ tr => (inr e, tr).

(** A call answered by the world. *)
Definition call {R : Type} (ask : World -> Trace -> R) (ev : R -> Event)
    : M R :=
  fun w tr => let r := ask w tr in (inl r, (tr ++ [ev r])%list).

(** A step with no answer. *)
Definition step (ev : Event) : M unit := fun _ tr => (inl tt, (tr ++ [ev])%list).

(** [if err != nil { return wrap(err) }] *)
Definition check (err : error) (wrap : string -> error) : M unit :=
  match err with
  | Some msg => return_ (wrap msg)
  | None => ret tt
  end.

(** [v, err := ...; if err != nil { return wrap(err) }] *)
Definition try {A : Type} (r : result A) (wrap : string -> error) : M A :=
  match r with
  | Ok a => ret a
  | Err msg => return_ (wrap msg)
  end.

(** A whole function returning [error]. *)
Definition Fn : Type := World -> Trace -> error * Trace.

Definition exec (body : M error) : Fn :=
  fun w tr =>
    match body w tr with
    | (inl e, tr') => (e, tr')
    | (inr e, tr') => (e, tr')
    end.

(** Calling such a function from another body. *)
Definition invoke (f : Fn) : M error :=
  fun w tr => let (e, tr') := f w tr in (inl e, tr').

(** Modelled from the spec: [Env.Go] of package [environment], which is not
    among the sources.  It launches [fn] as a supervised background task and
    comes back at once; the task runs beside the pipeline, so what it waits
    for and how it ends is never an answer the caller sees. *)
Definition env_Go (fn : Task) : M unit := step (EvGo fn).

(** Modelled from the spec: [Env.DeferErr] of package [environment], which
    is not among the sources.  It registers a cleanup under a label, to be
    run when the environment is closed. *)
Definition env_DeferErr (label : string) (cleanup : Closer) : M unit :=
  step (EvDeferErr label cleanup).

(* ================================================================== *)
(** ** [Stack.runMonomer] and [Stack.Run] *)

Section Orchestrator.

Variable L : Lib.

Definition anvilCmd (s : Stack) : Cmd :=
  CommandContext "anvil"
    [ "--port"; url_Port (anvilURL s);
      "--order"; "fifo";
      "--disable-block-gas-limit";
      "--gas-price"; "0";
      "--block-time"; Sprint_Seconds L (l1BlockTime s) ].

Definition forgeCmd (s : Stack) (privKey : PrivateKey) : Cmd :=
  CommandContext "forge"
    [ "script";
      "--root"; contractsRootDir s;
      "-vvv";
      filepath_Join L [contractsRootDir s; "scripts"; "Deploy.s.sol"]
        ++ ":Deploy";
      "--rpc-url"; url_String (anvilURL s);
      "--broadcast";
      "--private-key"; Bytes2Hex L (FromECDSA L privKey) ].

Definition runMonomer (s : Stack) (genesisTime chainIDU64 : Z) : Fn :=
  exec (
    r <- call (fun w tr => net_Listen w tr "tcp" "127.0.0.1:0")
              (EvListen "tcp" "127.0.0.1:0") ;;
    engineHTTP <- try r (Errorf "set up monomer engine http listener: ") ;;
    r <- call (fun w tr => net_Listen w tr "tcp" (url_Host (monomerEngineURL s)))
              (EvListen "tcp" (url_Host (monomerEngineURL s))) ;;
    engineWS <- try r (Errorf "set up monomer engine ws listener: ") ;;
    r <- call (fun w tr => net_Listen w tr "tcp" (url_Host (monomerCometURL s)))
              (EvListen "tcp" (url_Host (monomerCometURL s))) ;;
    cometListener <- try r (Errorf "set up monomer comet listener: ") ;;
    let chainID := monomer_ChainID chainIDU64 in
    appdb <- call dbm_NewMemDB EvNewMemDB ;;
    r <- call (fun w tr => testapp_New w tr appdb (ChainID_String L chainID))
              (EvTestappNew appdb (ChainID_String L chainID)) ;;
    app <- try r (Errorf "new test app: ") ;;
    blockdb <- call dbm_NewMemDB EvNewMemDB ;;
    env_DeferErr "close block db" (CloseMemDB blockdb) ;;;
    txdb <- call cometdb_NewMemDB EvCometNewMemDB ;;
    env_DeferErr "close tx db" (CloseCometMemDB txdb) ;;;
    mempooldb <- call dbm_NewMemDB EvNewMemDB ;;
    env_DeferErr "close mempool db" (CloseMemDB mempooldb) ;;;
    appState <- call (fun w tr => DefaultGenesis w tr app)
                     (EvDefaultGenesis app) ;;
    let n :=
      node_New
        app
        {| AppState_of := appState;
           ChainID_of := chainID;
           Time_of := genesisTime |}
        engineHTTP
        engineWS
        cometListener
        blockdb
        mempooldb
        txdb
        AdaptCosmosTxsToEthTxs
        AdaptPayloadTxsToCosmosTxs
        (eventListener s) in
    step (EvNodeNew n) ;;;
    err <- call (fun w tr => node_Run w tr n) (EvNodeRun n) ;;
    check err (Errorf "run monomer: ") ;;;
    ret None).

(** [const l2ChainID = 901] and [const networkName = "hardhat"] *)
Definition l2ChainID : Z := 901.
Definition networkName : string := "hardhat".

Definition Run (s : Stack) : Fn :=
  exec (
    (* Run anvil. *)
    let anvilCmd := anvilCmd s in
    err <- call (fun w tr => LogProcess w tr "anvil" anvilCmd)
                (EvLogProcess "anvil" anvilCmd) ;;
    check err (Errorf "log anvil process: ") ;;;
    err <- call (fun w tr => cmd_Start w tr anvilCmd) (EvStart anvilCmd) ;;
    check err (Errorf ("start " ++ cmd_String L anvilCmd ++ ": ")) ;;;
    env_Go (MonitorAnvil anvilCmd (eventListener s)) ;;;
    reachable <- call (fun w tr => IsReachable w tr (anvilURL s))
                      (EvIsReachable (anvilURL s)) ;;
    (if negb reachable then return_ None else ret tt) ;;;

    (* Fund an account. *)
    r <- call (fun w tr => DialContext w tr (url_String (anvilURL s)))
              (EvDialContext (url_String (anvilURL s))) ;;
    anvilRPCClient <- try r (Errorf "dial anvil: ") ;;
    let anvil := NewAnvilClient anvilRPCClient in
    r <- call GenerateKey EvGenerateKey ;;
    privKey <- try r (Errorf "generate key: ") ;;
    let addr := PubkeyToAddress L (PublicKey_of privKey) in
    err <- call (fun w tr => SetBalance w tr anvil addr (10 * oneETH))
                (EvSetBalance anvil addr (10 * oneETH)) ;;
    check err (Errorf "set balance: ") ;;;

    (* Deploy the OP L1 contracts. *)
    let forgeCmd := forgeCmd s privKey in
    err <- call (fun w tr => LogProcess w tr "forge" forgeCmd)
                (EvLogProcess "forge" forgeCmd) ;;
    check err (Errorf "log forge process: ") ;;;
    err <- call (fun w tr => cmd_Start w tr forgeCmd) (EvStart forgeCmd) ;;
    check err (Errorf ("start " ++ cmd_String L forgeCmd ++ ": ")) ;;;
    err <- call (fun w tr => cmd_Wait w tr forgeCmd) (EvWait forgeCmd) ;;
    check err (Errorf ("run " ++ cmd_String L forgeCmd ++ ": ")) ;;;
    r <- call (fun w tr => BlockByNumber w tr anvil None)
              (EvBlockByNumber anvil None) ;;
    latestL1Block <- try r (Errorf "get the latest l1 block: ") ;;

    (* Run Monomer. *)
    err <- invoke (runMonomer s (block_Time latestL1Block) l2ChainID) ;;
    match err with Some _ => return_ err | None => ret tt end ;;;
    reachable <- call (fun w tr => IsReachable w tr (monomerEngineURL s))
                      (EvIsReachable (monomerEngineURL s)) ;;
    (if negb reachable then return_ None else ret tt) ;;;
    r <- call (fun w tr => DialContext w tr (url_String (monomerEngineURL s)))
              (EvDialContext (url_String (monomerEngineURL s))) ;;
    monomerRPCClient <- try r (Errorf "dial monomer: ") ;;
    let monomerClient := NewMonomerClient monomerRPCClient in
    r <- call (fun w tr => GenesisHash w tr monomerClient)
              (EvGenesisHash monomerClient) ;;
    l2GenesisBlockHash <- try r (Errorf "get Monomer genesis block hash: ") ;;

    (* Get deploy config and rollup config. *)
    let deploymentsPath :=
      filepath_Join L [contractsRootDir s; "deployments"; networkName; ".deploy"] in
    r <- call (fun w tr => NewL1Deployments w tr deploymentsPath)
              (EvNewL1Deployments deploymentsPath) ;;
    l1Deployments <- try r (Errorf "new l1 deployments: ") ;;
    let deployConfigPath :=
      filepath_Join L [contractsRootDir s; "deploy-config"] in
    r <- call (fun w tr =>
                 NewDeployConfigWithNetwork w tr networkName deployConfigPath)
              (EvNewDeployConfigWithNetwork networkName deployConfigPath) ;;
    deployConfig <- try r (Errorf "new deploy config: ") ;;
    step (EvStoreL1ChainID 31337) ;;;
    let deployConfig := set_L1ChainID 31337 deployConfig in
    step (EvStoreL2ChainID l2ChainID) ;;;
    let deployConfig := set_L2ChainID l2ChainID deployConfig in
    step (EvSetDeployments deployConfig l1Deployments) ;;;
    let deployConfig := SetDeployments L deployConfig l1Deployments in
    r <- call (fun w tr =>
                 RollupConfig w tr deployConfig latestL1Block l2GenesisBlockHash 1)
              (EvRollupConfig deployConfig latestL1Block l2GenesisBlockHash 1) ;;
    rollupConfig <- try r (Errorf "new rollup config: ") ;;

    let opStack :=
      NewOPStack
        (anvilURL s)
        (monomerEngineURL s)
        (opNodeURL s)
        (L2OutputOracleProxy l1Deployments)
        privKey
        rollupConfig
        (eventListener s) in
    step (EvNewOPStack opStack) ;;;
    err <- call (fun w tr => opStack_Run w tr opStack) (EvOPStackRun opStack) ;;
    check err (Errorf "run the op stack: ") ;;;
    ret None).

(** The closure of [env.Go] in [Stack.Run], run after the steps [tr]:
    [if err := anvilCmd.Wait(); err != nil { OnAnvilErr(fmt.Errorf(...)) }] *)
Definition runTask (t : Task) (w : World) (tr : Trace) : list Callback :=
  match t with
  | MonitorAnvil c l =>
      match cmd_Wait w tr c with
      | Some msg => [OnAnvilErr l (Errorf ("run " ++ cmd_String L c ++ ": ") msg)]
      | None => []
      end
  end.

End Orchestrator.

(* ================================================================== *)
(** ** Reading a run *)

(** [e] is the last step of [tr]: nothing was done after it. *)
Definition last_step (tr : Trace) (e : Event) : Prop :=
  exists before, tr = (before ++ [e])%list.

(** [a] was done at some time before [b]. *)
Fixpoint precedes (a b : Event) (tr : Trace) : Prop :=
  match tr with
  | [] => False
  | x :: tr' => (x = a /\ In b tr') \/ precedes a b tr'
  end.

(** [b] is the very next step after [a]. *)
Fixpoint adjacent (a b : Event) (tr : Trace) : Prop :=
  match tr with
  | x :: (y :: _) as tr' => (x = a /\ y = b) \/ adjacent a b tr'
  | _ => False
  end.

(** The answers of all key generations of a run. *)
Definition generated_keys (tr : Trace) : list (result PrivateKey) :=
  flat_map (fun e => match e with EvGenerateKey r => [r] | _ => [] end) tr.

(** The listeners asked for in a run: address and answer, in order. *)
Definition listens (tr : Trace) : list (string * string * result NetListener) :=
  flat_map
    (fun e => match e with EvListen n a r => [(n, a, r)] | _ => [] end) tr.

(** The tasks given to [env.Go] in a run. *)
Definition background_tasks (tr : Trace) : list Task :=
  flat_map (fun e => match e with EvGo t => [t] | _ => [] end) tr.

(** The steps of config derivation and of the dependent stack: everything
    the pipeline does once the L2 node has been found reachable, but for
    the dial of its engine. *)
Definition derivation_or_later (e : Event) : bool :=
  match e with
  | EvGenesisHash _ _
  | EvNewL1Deployments _ _
  | EvNewDeployConfigWithNetwork _ _ _
  | EvStoreL1ChainID _
  | EvStoreL2ChainID _
  | EvSetDeployments _ _
  | EvRollupConfig _ _ _ _ _
  | EvNewOPStack _
  | EvOPStackRun _ _ => true
  | _ => false
  end.

(** The stores into the deploy config, the injection of the deployments
    and the derivation itself. *)
Definition override_or_derivation (e : Event) : bool :=
  match e with
  | EvStoreL1ChainID _
  | EvStoreL2ChainID _
  | EvSetDeployments _ _
  | EvRollupConfig _ _ _ _ _ => true
  | _ => false
  end.

(* ================================================================== *)
(** ** Changing one answer of a world *)

Definition with_IsReachable (f : Trace -> URL -> bool) (w : World) : World :=
  {| LogProcess := LogProcess w;
     cmd_Start := cmd_Start w;
     cmd_Wait := cmd_Wait w;
     IsReachable := f;
     DialContext := DialContext w;
     GenerateKey := GenerateKey w;
     SetBalance := SetBalance w;
     BlockByNumber := BlockByNumber w;
     net_Listen := net_Listen w;
     dbm_NewMemDB := dbm_NewMemDB w;
     cometdb_NewMemDB := cometdb_NewMemDB w;
     testapp_New := testapp_New w;
     DefaultGenesis := DefaultGenesis w;
     node_Run := node_Run w;
     GenesisHash := GenesisHash w;
     NewL1Deployments := NewL1Deployments w;
     NewDeployConfigWithNetwork := NewDeployConfigWithNetwork w;
     RollupConfig := RollupConfig w;
     opStack_Run := opStack_Run w |}.

Definition with_cmd_Start (f : Trace -> Cmd -> error) (w : World) : World :=
  {| LogProcess := LogProcess w;
     cmd_Start := f;
     cmd_Wait := cmd_Wait w;
     IsReachable := IsReachable w;
     DialContext := DialContext w;
     GenerateKey := GenerateKey w;
     SetBalance := SetBalance w;
     BlockByNumber := BlockByNumber w;
     net_Listen := net_Listen w;
     dbm_NewMemDB := dbm_NewMemDB w;
     cometdb_NewMemDB := cometdb_NewMemDB w;
     testapp_New := testapp_New w;
     DefaultGenesis := DefaultGenesis w;
     node_Run := node_Run w;
     GenesisHash := GenesisHash w;
     NewL1Deployments := NewL1Deployments w;
     NewDeployConfigWithNetwork := NewDeployConfigWithNetwork w;
     RollupConfig := RollupConfig w;
     opStack_Run := opStack_Run w |}.

Definition with_cmd_Wait (f : Trace -> Cmd -> error) (w : World) : World :=
  {| LogProcess := LogProcess w;
     cmd_Start := cmd_Start w;
     cmd_Wait := f;
     IsReachable := IsReachable w;
     DialContext := DialContext w;
     GenerateKey := GenerateKey w;
     SetBalance := SetBalance w;
     BlockByNumber := BlockByNumber w;
     net_Listen := net_Listen w;
     dbm_NewMemDB := dbm_NewMemDB w;
     cometdb_NewMemDB := cometdb_NewMemDB w;
     testapp_New := testapp_New w;
     DefaultGenesis := DefaultGenesis w;
     node_Run := node_Run w;
     GenesisHash := GenesisHash w;
     NewL1Deployments := NewL1Deployments w;
     NewDeployConfigWithNetwork := NewDeployConfigWithNetwork w;
     RollupConfig := RollupConfig w;
     opStack_Run := opStack_Run w |}.

(** The world in which the wait on the one command [c] ends as [f] says,
    whenever it ends; all else is as in [w]. *)
Definition with_exit_of (c : Cmd) (f : Trace -> error) (w : World) : World :=
  with_cmd_Wait
    (fun tr c' => if Cmd_eqb c' c then f tr else cmd_Wait w tr c') w.

(* ================================================================== *)
(** ** A concrete devnet, for running the model *)

Module Devnet.

Local Open Scope Z_scope.

Definition lib : Lib :=
  {| cmd_String := fun c => String.concat " " (cmd_name c :: cmd_args c);
     Sprint_Seconds := fun d => if (d =? 2000000000)%Z then "2" else "1";
     filepath_Join := String.concat "/";
     PubkeyToAddress := fun pk => (X pk + Y pk)%Z;
     FromECDSA := fun k => [D k];
     Bytes2Hex := fun bs => match bs with [42%Z] => "2a" | _ => "00" end;
     ChainID_String := fun c => if (c =? 901)%Z then "901" else "0";
     SetDeployments := fun d l =>
       {| L1ChainID := L1ChainID d;
          L2ChainID := L2ChainID d;
          L1BlockTime := L1BlockTime d;
          L2BlockTime := L2BlockTime d;
          SequencerWindowSize := SequencerWindowSize d;
          L1UseClique := L1UseClique d;
          FundDevAccounts := FundDevAccounts d;
          L1GenesisBlockTimestamp := L1GenesisBlockTimestamp d;
          deployment_addresses :=
            ("L2OutputOracleProxy", L2OutputOracleProxy l) :: other_roles l |}
  |}.

Definition stack : Stack :=
  New (mkURL "ws://127.0.0.1:8545" "127.0.0.1:8545" "8545")
      (mkURL "ws://127.0.0.1:8889" "127.0.0.1:8889" "8889")
      (mkURL "http://127.0.0.1:8890" "127.0.0.1:8890" "8890")
      (mkURL "http://127.0.0.1:8891" "127.0.0.1:8891" "8891")
      "/optimism/packages/contracts-bedrock"
      2000000000
      (Listener_id 0%nat).

Definition key : PrivateKey := mkPrivateKey (mkPublicKey 7 11) 42.

(** The template as shipped: its L1 chain ID is 900. *)
Definition template : DeployConfig :=
  {| L1ChainID := 900;
     L2ChainID := 902;
     L1BlockTime := 3;
     L2BlockTime := 2;
     SequencerWindowSize := 200;
     L1UseClique := true;
     FundDevAccounts := true;
     L1GenesisBlockTimestamp := 0;
     deployment_addresses := [] |}.

Definition deployments : L1Deployments :=
  {| L2OutputOracleProxy := 3735928559;
     other_roles := [("OptimismPortalProxy", 48879%Z)] |}.

Definition latest : Block :=
  {| block_Number := 57; block_Time := 1700000114; block_Hash := 170 |}.

Definition genesisHash : Hash := 2748.

(** The template after the two stores, and after [SetDeployments]. *)
Definition overridden : DeployConfig :=
  set_L2ChainID l2ChainID (set_L1ChainID 31337 template).

Definition derived : DeployConfig := SetDeployments lib overridden deployments.

(** The deployment command line of the run, and the dependent stack. *)
Definition forge : Cmd := forgeCmd lib stack key.

Definition opstack : OPStack :=
  NewOPStack (anvilURL stack) (monomerEngineURL stack) (opNodeURL stack)
    (L2OutputOracleProxy deployments) key 33%nat (eventListener stack).

(** The L2 node as [up] has it built. *)
Definition node : Node :=
  node_New
    15%nat
    {| AppState_of := 15%nat; ChainID_of := 901; Time_of := 1700000114 |}
    11%nat 12%nat 13%nat
    16%nat 20%nat 18%nat
    AdaptCosmosTxsToEthTxs AdaptPayloadTxsToCosmosTxs
    (Listener_id 0%nat).

(** Every collaborator succeeds; handles are numbered by the time of the
    call. *)
Definition up : World :=
  {| LogProcess := fun _ _ _ => None;
     cmd_Start := fun _ _ => None;
     cmd_Wait := fun _ _ => None;
     IsReachable := fun _ _ => true;
     DialContext := fun tr _ => Ok (length tr);
     GenerateKey := fun _ => Ok key;
     SetBalance := fun _ _ _ _ => None;
     BlockByNumber := fun _ _ _ => Ok latest;
     net_Listen := fun tr _ _ => Ok (length tr);
     dbm_NewMemDB := fun tr => length tr;
     cometdb_NewMemDB := fun tr => length tr;
     testapp_New := fun tr _ _ => Ok (length tr);
     DefaultGenesis := fun _ a => a;
     node_Run := fun _ _ => None;
     GenesisHash := fun _ _ => Ok genesisHash;
     NewL1Deployments := fun _ _ => Ok deployments;
     NewDeployConfigWithNetwork := fun _ _ _ => Ok template;
     RollupConfig := fun tr _ _ _ _ => Ok (length tr);
     opStack_Run := fun _ _ => None |}.

(** The simulator never comes up. *)
Definition l1_down : World := with_IsReachable (fun _ _ => false) up.

(** The simulator comes up, the L2 engine does not. *)
Definition l2_down : World :=
  with_IsReachable
    (fun _ u => String.eqb (url_String u) (url_String (anvilURL stack))) up.

(** The deployment script cannot be spawned. *)
Definition forge_missing : World :=
  with_cmd_Start
    (fun _ c => if String.eqb (cmd_name c) "forge"
                then Some "executable file not found in $PATH" else None) up.

(** The deployment script exits with status 1. *)
Definition forge_fails : World :=
  with_cmd_Wait
    (fun _ c => if String.eqb (cmd_name c) "forge"
                then Some "exit status 1" else None) up.

(** The simulator dies with status 1 at some time. *)
Definition anvil_dies : World :=
  with_exit_of (anvilCmd lib stack) (fun _ => Some "exit status 1") up.

End Devnet.

(* ================================================================== *)
(** ** More ways to read a run *)

(** The last step of a run, if it took any. *)
Fixpoint final_step (tr : Trace) : option Event :=
  match tr with
  | [] => None
  | [e] => Some e
  | _ :: tr' => final_step tr'
  end.


(** The two steps after which [Run] returns [nil]. *)
Definition ends_quietly (e : Event) : bool :=
  match e with
  | EvIsReachable _ false
  | EvOPStackRun _ None => true
  | _ => false
  end.

(** The cleanups registered in a run, in order. *)
Definition deferred (tr : Trace) : list (string * Closer) :=
  flat_map
    (fun e => match e with EvDeferErr l f => [(l, f)] | _ => [] end) tr.


(* ================================================================== *)
(** ** The run that gets to the end *)

(** What the collaborators answered in a run that got as far as the
    dependent stack. *)
Record Answers : Type := mkAnswers {
  ans_anvilRPC : RPCClient;
  ans_key : PrivateKey;
  ans_latestL1Block : Block;
  ans_engineHTTP : NetListener;
  ans_engineWS : NetListener;
  ans_cometListener : NetListener;
  ans_appdb : MemDB;
  ans_app : App;
  ans_blockdb : MemDB;
  ans_txdb : CometMemDB;
  ans_mempooldb : MemDB;
  ans_appState : AppState;
  ans_monomerRPC : RPCClient;
  ans_l2GenesisBlockHash : Hash;
  ans_l1Deployments : L1Deployments;
  ans_template : DeployConfig;
  ans_rollupConfig : RollupCfg;
  ans_opStackRun : error
}.

Section Complete.

Variables (L : Lib) (s : Stack) (a : Answers).

Definition complete_node : Node :=
  node_New (ans_app a)
    {| AppState_of := ans_appState a;
       ChainID_of := monomer_ChainID l2ChainID;
       Time_of := block_Time (ans_latestL1Block a) |}
    (ans_engineHTTP a) (ans_engineWS a) (ans_cometListener a)
    (ans_blockdb a) (ans_mempooldb a) (ans_txdb a)
    AdaptCosmosTxsToEthTxs AdaptPayloadTxsToCosmosTxs (eventListener s).

Definition complete_deployConfig : DeployConfig :=
  SetDeployments L
    (set_L2ChainID l2ChainID (set_L1ChainID 31337 (ans_template a)))
    (ans_l1Deployments a).

Definition complete_opStack : OPStack :=
  NewOPStack (anvilURL s) (monomerEngineURL s) (opNodeURL s)
    (L2OutputOracleProxy (ans_l1Deployments a)) (ans_key a)
    (ans_rollupConfig a) (eventListener s).

(** The steps of such a run, first to last. *)
Definition complete_run : Trace :=
  let anvil := NewAnvilClient (ans_anvilRPC a) in
  let forge := forgeCmd L s (ans_key a) in
  let monomerClient := NewMonomerClient (ans_monomerRPC a) in
  [ EvLogProcess "anvil" (anvilCmd L s) None;
    EvStart (anvilCmd L s) None;
    EvGo (MonitorAnvil (anvilCmd L s) (eventListener s));
    EvIsReachable (anvilURL s) true;
    EvDialContext (url_String (anvilURL s)) (Ok (ans_anvilRPC a));
    EvGenerateKey (Ok (ans_key a));
    EvSetBalance anvil (PubkeyToAddress L (PublicKey_of (ans_key a)))
      (10 * oneETH) None;
    EvLogProcess "forge" forge None;
    EvStart forge None;
    EvWait forge None;
    EvBlockByNumber anvil None (Ok (ans_latestL1Block a));
    EvListen "tcp" "127.0.0.1:0" (Ok (ans_engineHTTP a));
    EvListen "tcp" (url_Host (monomerEngineURL s)) (Ok (ans_engineWS a));
    EvListen "tcp" (url_Host (monomerCometURL s)) (Ok (ans_cometListener a));
    EvNewMemDB (ans_appdb a);
    EvTestappNew (ans_appdb a)
      (ChainID_String L (monomer_ChainID l2ChainID)) (Ok (ans_app a));
    EvNewMemDB (ans_blockdb a);
    EvDeferErr "close block db" (CloseMemDB (ans_blockdb a));
    EvCometNewMemDB (ans_txdb a);
    EvDeferErr "close tx db" (CloseCometMemDB (ans_txdb a));
    EvNewMemDB (ans_mempooldb a);
    EvDeferErr "close mempool db" (CloseMemDB (ans_mempooldb a));
    EvDefaultGenesis (ans_app a) (ans_appState a);
    EvNodeNew complete_node;
    EvNodeRun complete_node None;
    EvIsReachable (monomerEngineURL s) true;
    EvDialContext (url_String (monomerEngineURL s)) (Ok (ans_monomerRPC a));
    EvGenesisHash monomerClient (Ok (ans_l2GenesisBlockHash a));
    EvNewL1Deployments
      (filepath_Join L
         [contractsRootDir s; "deployments"; networkName; ".deploy"])
      (Ok (ans_l1Deployments a));
    EvNewDeployConfigWithNetwork networkName
      (filepath_Join L [contractsRootDir s; "deploy-config"])
      (Ok (ans_template a));
    EvStoreL1ChainID 31337;
    EvStoreL2ChainID l2ChainID;
    EvSetDeployments
      (set_L2ChainID l2ChainID (set_L1ChainID 31337 (ans_template a)))
      (ans_l1Deployments a);
    EvRollupConfig complete_deployConfig (ans_latestL1Block a)
      (ans_l2GenesisBlockHash a) 1 (Ok (ans_rollupConfig a));
    EvNewOPStack complete_opStack;
    EvOPStackRun complete_opStack (ans_opStackRun a) ].

End Complete.


(* ================================================================== *)
(** ** Package [opdevnet]: the embedded defaults *)

Definition set_L1UseClique (v : bool) (d : DeployConfig) : DeployConfig :=
  {| L1ChainID := L1ChainID d;
     L2ChainID := L2ChainID d;
     L1BlockTime := L1BlockTime d;
     L2BlockTime := L2BlockTime d;
     SequencerWindowSize := SequencerWindowSize d;
     L1UseClique := v;
     FundDevAccounts := FundDevAccounts d;
     L1GenesisBlockTimestamp := L1GenesisBlockTimestamp d;
     deployment_addresses := deployment_addresses d |}.

Definition set_L1GenesisBlockTimestamp (v : Z) (d : DeployConfig)
    : DeployConfig :=
  {| L1ChainID := L1ChainID d;
     L2ChainID := L2ChainID d;
     L1BlockTime := L1BlockTime d;
     L2BlockTime := L2BlockTime d;
     SequencerWindowSize := SequencerWindowSize d;
     L1UseClique := L1UseClique d;
     FundDevAccounts := FundDevAccounts d;
     L1GenesisBlockTimestamp := v;
     deployment_addresses := deployment_addresses d |}.

Definition set_FundDevAccounts (v : bool) (d : DeployConfig) : DeployConfig :=
  {| L1ChainID := L1ChainID d;
     L2ChainID := L2ChainID d;
     L1BlockTime := L1BlockTime d;
     L2BlockTime := L2BlockTime d;
     SequencerWindowSize := SequencerWindowSize d;
     L1UseClique := L1UseClique d;
     FundDevAccounts := v;
     L1GenesisBlockTimestamp := L1GenesisBlockTimestamp d;
     deployment_addresses := deployment_addresses d |}.

Definition set_L1BlockTime (v : Z) (d : DeployConfig) : DeployConfig :=
  {| L1ChainID := L1ChainID d;
     L2ChainID := L2ChainID d;
     L1BlockTime := v;
     L2BlockTime := L2BlockTime d;
     SequencerWindowSize := SequencerWindowSize d;
     L1UseClique := L1UseClique d;
     FundDevAccounts := FundDevAccounts d;
     L1GenesisBlockTimestamp := L1GenesisBlockTimestamp d;
     deployment_addresses := deployment_addresses d |}.

Definition set_L2BlockTime (v : Z) (d : DeployConfig) : DeployConfig :=
  {| L1ChainID := L1ChainID d;
     L2ChainID := L2ChainID d;
     L1BlockTime := L1BlockTime d;
     L2BlockTime := v;
     SequencerWindowSize := SequencerWindowSize d;
     L1UseClique := L1UseClique d;
     FundDevAccounts := FundDevAccounts d;
     L1GenesisBlockTimestamp := L1GenesisBlockTimestamp d;
     deployment_addresses := deployment_addresses d |}.

Definition set_SequencerWindowSize (v : Z) (d : DeployConfig) : DeployConfig :=
  {| L1ChainID := L1ChainID d;
     L2ChainID := L2ChainID d;
     L1BlockTime := L1BlockTime d;
     L2BlockTime := L2BlockTime d;
     SequencerWindowSize := v;
     L1UseClique := L1UseClique d;
     FundDevAccounts := FundDevAccounts d;
     L1GenesisBlockTimestamp := L1GenesisBlockTimestamp d;
     deployment_addresses := deployment_addresses d |}.

(** Conversion of an integer to [uint64], and to [int64]. *)
Definition to_uint64 (z : Z) : Z := (z mod 2 ^ 64)%Z.
Definition to_int64 (z : Z) : Z := ((z + 2 ^ 63) mod 2 ^ 64 - 2 ^ 63)%Z.

Module opdevnet.

(** An error as [errors.Unwrap] sees it: its [Error()] text and the error
    it wraps, if any. *)
Inductive goerror : Type :=
| Plain (text : string)
| Wrapping (text : string) (inner : goerror).

Definition Error (e : goerror) : string :=
  match e with Plain t | Wrapping t _ => t end.

Definition Unwrap (e : goerror) : option goerror :=
  match e with Plain _ => None | Wrapping _ inner => Some inner end.

(** [fmt.Errorf(prefix + "%v", err)] keeps the text of [err] only. *)
Definition Errorf_v (prefix : string) (err : goerror) : goerror :=
  Plain (prefix ++ Error err).

(** [fmt.Errorf(prefix + "%w", err)] wraps [err]. *)
Definition Errorf_w (prefix : string) (err : goerror) : goerror :=
  Wrapping (prefix ++ Error err) err.

Definition bytes : Type := list Byte.byte.

(** The four files embedded with [go:embed]. *)
Record Embedded : Type := mkEmbedded {
  l1DeploymentsJSON : bytes;
  deployConfigJSON : bytes;
  l1AllocsJSON : bytes;
  l2AllocsJSON : bytes
}.

Section Defaults.

(** [genesis.ForgeDump], of which [state.Dump] is a conversion, and
    [genesis.ForgeAllocs]. *)
Variables ForgeDump ForgeAllocs : Type.

(** [json.Unmarshal(data, &v)] into a fresh variable of each of the four
    types: what the variable holds afterwards, and the error. *)
Record Json : Type := mkJson {
  Unmarshal_L1Deployments : bytes -> L1Deployments * option goerror;
  Unmarshal_DeployConfig : bytes -> DeployConfig * option goerror;
  Unmarshal_ForgeDump : bytes -> ForgeDump * option goerror;
  Unmarshal_ForgeAllocs : bytes -> ForgeAllocs * option goerror
}.

Variables (L : Lib) (J : Json) (files : Embedded).

(** [time.Now().Unix()] at the time of the call. *)
Variable now : Z.

Definition DefaultL1Deployments : option L1Deployments * option goerror :=
  let (l1Deployments, err) :=
    Unmarshal_L1Deployments J (l1DeploymentsJSON files) in
  match err with
  | Some err => (None, Some (Errorf_v "unmarshal l1 deployments: " err))
  | None => (Some l1Deployments, None)
  end.

Definition DefaultDeployConfig (l1Deployments : L1Deployments)
    : option DeployConfig * option goerror :=
  let (deployConfig, err) :=
    Unmarshal_DeployConfig J (deployConfigJSON files) in
  match err with
  | Some err => (None, Some (Errorf_v "unmarshal deploy config: " err))
  | None =>
      let deployConfig := set_L1UseClique false deployConfig in
      let deployConfig :=
        set_L1GenesisBlockTimestamp (to_uint64 now) deployConfig in
      let deployConfig := set_FundDevAccounts true deployConfig in
      let deployConfig := set_L1BlockTime 2 deployConfig in
      let deployConfig := set_L2BlockTime 1 deployConfig in
      let deployConfig := SetDeployments L deployConfig l1Deployments in
      let deployConfig := set_SequencerWindowSize 4 deployConfig in
      (Some deployConfig, None)
  end.

Definition DefaultL1Allocs : option ForgeDump * option goerror :=
  let (fdump, err) := Unmarshal_ForgeDump J (l1AllocsJSON files) in
  match err with
  | Some err => (None, Some (Errorf_w "cannot unmarshal dump: " err))
  | None => let dump := fdump in (Some dump, None)
  end.

Definition DefaultL2Allocs : option ForgeAllocs * option goerror :=
  let (l2Allocs, err) := Unmarshal_ForgeAllocs J (l2AllocsJSON files) in
  match err with
  | Some err => (None, Some (Errorf_v "unmarshal l2 allocs: " err))
  | None => (Some l2Allocs, None)
  end.

End Defaults.

Arguments Unmarshal_L1Deployments {ForgeDump ForgeAllocs} j data.
Arguments Unmarshal_DeployConfig {ForgeDump ForgeAllocs} j data.
Arguments Unmarshal_ForgeDump {ForgeDump ForgeAllocs} j data.
Arguments Unmarshal_ForgeAllocs {ForgeDump ForgeAllocs} j data.
Arguments DefaultL1Deployments {ForgeDump ForgeAllocs} J files.
Arguments DefaultDeployConfig {ForgeDump ForgeAllocs} L J files now
  l1Deployments.
Arguments DefaultL1Allocs {ForgeDump ForgeAllocs} J files.
Arguments DefaultL2Allocs {ForgeDump ForgeAllocs} J files.

(** [SetDeployments] writes deployment addresses only. *)
Definition writes_addresses_only (L : Lib) : Prop :=
  forall d l,
    L1ChainID (SetDeployments L d l) = L1ChainID d /\
    L2ChainID (SetDeployments L d l) = L2ChainID d /\
    L1BlockTime (SetDeployments L d l) = L1BlockTime d /\
    L2BlockTime (SetDeployments L d l) = L2BlockTime d /\
    SequencerWindowSize (SetDeployments L d l) = SequencerWindowSize d /\
    L1UseClique (SetDeployments L d l) = L1UseClique d /\
    FundDevAccounts (SetDeployments L d l) = FundDevAccounts d /\
    L1GenesisBlockTimestamp (SetDeployments L d l)
    = L1GenesisBlockTimestamp d.

(** A Go result [(v, err)] with exactly one side set. *)
Definition one_sided {A : Type} (r : option A * option goerror) : Prop :=
  (exists v, r = (Some v, None)) \/ (exists e, r = (None, Some e)).

End opdevnet.

(* ================================================================== *)
(** ** [ethdevnet]: the in-process L1 *)

Module l1.

Import opdevnet.

(** [core.Genesis], as far as read here: [Config.ChainID]. *)
Record CoreGenesis : Type := mkCoreGenesis { Config_ChainID : Z }.

(** [fakebeacon.NewBeacon(log, blobsDir, genesisTime, blockTime)] with a
    nil logger, and [clock.NewAdvancingClock(d)]. *)
Record Beacon : Type := NewBeacon {
  beacon_blobsDir : string;
  beacon_genesisTime : Z;
  beacon_blockTime : Z
}.
Record Clock : Type := NewAdvancingClock { clock_tick : Duration }.

Definition GethNode : Type := nat.

(** [time.Second] *)
Definition Second : Duration := 1000000000%Z.

Variant Call : Type :=
| CallInitL1 (chainID blockTime : Z) (g : CoreGenesis) (c : Clock)
    (blobsDir : string) (b : Beacon)
| CallStart (n : GethNode)
| CallAttach (n : GethNode)
| CallWSEndpoint (n : GethNode).

Record Geth : Type := mkGeth {
  (** [time.Now().Unix()] *)
  Now_Unix : Z;
  (** [Uint64] of a [big.Int] *)
  big_Uint64 : Z -> Z;
  InitL1 : Z -> Z -> CoreGenesis -> Clock -> string -> Beacon
           -> GethNode * option goerror;
  node_Start : GethNode -> option goerror;
  node_Attach : GethNode -> RPCClient;
  node_WSEndpoint : GethNode -> string
}.

Definition ethdevnet (L : Lib) (G : Geth) (blockTime : Z) (genesis : CoreGenesis)
    : (option RPCClient * string * option goerror) * list Call :=
  let now := Now_Unix G in
  let blobsDirectory := filepath_Join L ["artifacts"; "blobs"] in
  let beacon := NewBeacon blobsDirectory (to_uint64 now) blockTime in
  let myClock := NewAdvancingClock Second in
  let chainID := big_Uint64 G (Config_ChainID genesis) in
  let init := CallInitL1 chainID blockTime genesis myClock blobsDirectory beacon in
  let (node, err) :=
    InitL1 G chainID blockTime genesis myClock blobsDirectory beacon in
  match err with
  | Some err => ((None, "", Some (Errorf_w "init geth L1: " err)), [init])
  | None =>
      match node_Start G node with
      | Some err =>
          ((None, "", Some (Errorf_w "start geth L1: " err)),
           [init; CallStart node])
      | None =>
          ((Some (node_Attach G node), node_WSEndpoint G node, None),
           [init; CallStart node; CallAttach node; CallWSEndpoint node])
      end
  end.

End l1.

(* ================================================================== *)
(** ** The deposit of [TestE2E] *)

(** [l2GasLimit := l2blockGasLimit / 10] and [l1GasLimit := l2GasLimit * 2],
    both [uint64]: the pair [(l1GasLimit, l2GasLimit)]. *)
Definition depositGasLimits (l2blockGasLimit : Z) : Z * Z :=
  let l2GasLimit := (l2blockGasLimit / 10)%Z in
  let l1GasLimit := to_uint64 (l2GasLimit * 2) in
  (l1GasLimit, l2GasLimit).

(** [gasPrice.Int64() * 2], an [int64], from the value of
    [gasPrice.Int64()]. *)
Definition depositGasPrice (gasPrice_Int64 : Z) : Z :=
  to_int64 (gasPrice_Int64 * 2).


(* ================================================================== *)
(** ** More of the concrete devnet *)

Module Sample.

Local Open Scope Z_scope.

(** The port of the engine WebSocket endpoint is taken. *)
Definition ws_busy : World :=
  {| LogProcess := LogProcess Devnet.up;
     cmd_Start := cmd_Start Devnet.up;
     cmd_Wait := cmd_Wait Devnet.up;
     IsReachable := IsReachable Devnet.up;
     DialContext := DialContext Devnet.up;
     GenerateKey := GenerateKey Devnet.up;
     SetBalance := SetBalance Devnet.up;
     BlockByNumber := BlockByNumber Devnet.up;
     net_Listen := fun tr _ addr =>
       if String.eqb addr (url_Host (monomerEngineURL Devnet.stack))
       then Err "bind: address already in use" else Ok (length tr);
     dbm_NewMemDB := dbm_NewMemDB Devnet.up;
     cometdb_NewMemDB := cometdb_NewMemDB Devnet.up;
     testapp_New := testapp_New Devnet.up;
     DefaultGenesis := DefaultGenesis Devnet.up;
     node_Run := node_Run Devnet.up;
     GenesisHash := GenesisHash Devnet.up;
     NewL1Deployments := NewL1Deployments Devnet.up;
     NewDeployConfigWithNetwork := NewDeployConfigWithNetwork Devnet.up;
     RollupConfig := RollupConfig Devnet.up;
     opStack_Run := opStack_Run Devnet.up |}.

(** What [Devnet.up] answers in a whole run. *)
Definition answers : Answers :=
  {| ans_anvilRPC := 4%nat;
     ans_key := Devnet.key;
     ans_latestL1Block := Devnet.latest;
     ans_engineHTTP := 11%nat;
     ans_engineWS := 12%nat;
     ans_cometListener := 13%nat;
     ans_appdb := 14%nat;
     ans_app := 15%nat;
     ans_blockdb := 16%nat;
     ans_txdb := 18%nat;
     ans_mempooldb := 20%nat;
     ans_appState := 15%nat;
     ans_monomerRPC := 26%nat;
     ans_l2GenesisBlockHash := Devnet.genesisHash;
     ans_l1Deployments := Devnet.deployments;
     ans_template := Devnet.template;
     ans_rollupConfig := 33%nat;
     ans_opStackRun := None |}.

(** The node [runMonomer] builds in [Devnet.up] when called first, with
    genesis time 5 and chain ID 7. *)
Definition lone_node : Node :=
  node_New
    4%nat
    {| AppState_of := 4%nat; ChainID_of := 7; Time_of := 5 |}
    0%nat 1%nat 2%nat
    5%nat 9%nat 7%nat
    AdaptCosmosTxsToEthTxs AdaptPayloadTxsToCosmosTxs
    (Listener_id 0%nat).

Definition files : opdevnet.Embedded :=
  {| opdevnet.l1DeploymentsJSON := [];
     opdevnet.deployConfigJSON := [];
     opdevnet.l1AllocsJSON := [];
     opdevnet.l2AllocsJSON := [] |}.

(** Decoders that accept every file, and decoders that reject every one. *)
Definition json_ok : opdevnet.Json nat nat :=
  {| opdevnet.Unmarshal_L1Deployments := fun _ => (Devnet.deployments, None);
     opdevnet.Unmarshal_DeployConfig := fun _ => (Devnet.template, None);
     opdevnet.Unmarshal_ForgeDump := fun _ => (1%nat, None);
     opdevnet.Unmarshal_ForgeAllocs := fun _ => (2%nat, None) |}.

Definition truncated : opdevnet.goerror :=
  opdevnet.Plain "unexpected end of JSON input".

Definition json_bad : opdevnet.Json nat nat :=
  {| opdevnet.Unmarshal_L1Deployments :=
       fun _ => (Devnet.deployments, Some truncated);
     opdevnet.Unmarshal_DeployConfig :=
       fun _ => (Devnet.template, Some truncated);
     opdevnet.Unmarshal_ForgeDump := fun _ => (0%nat, Some truncated);
     opdevnet.Unmarshal_ForgeAllocs := fun _ => (0%nat, Some truncated) |}.

(** The default deploy config decoded by [json_ok] at time 1700000000. *)
Definition default_config : DeployConfig :=
  {| L1ChainID := 900;
     L2ChainID := 902;
     L1BlockTime := 2;
     L2BlockTime := 1;
     SequencerWindowSize := 4;
     L1UseClique := false;
     FundDevAccounts := true;
     L1GenesisBlockTimestamp := 1700000000;
     deployment_addresses :=
       [("L2OutputOracleProxy", 3735928559); ("OptimismPortalProxy", 48879)]
  |}.

Definition port_taken : opdevnet.goerror :=
  opdevnet.Plain "listen tcp 127.0.0.1:8545: bind: address already in use".

Definition no_datadir : opdevnet.goerror :=
  opdevnet.Plain "mkdir artifacts/blobs: permission denied".

(** An L1 node that cannot be initialised. *)
Definition geth_init_fails : l1.Geth :=
  {| l1.Now_Unix := 1700000000;
     l1.big_Uint64 := fun z => z mod 2 ^ 64;
     l1.InitL1 := fun _ _ _ _ _ _ => (0%nat, Some no_datadir);
     l1.node_Start := fun _ => None;
     l1.node_Attach := fun n => n;
     l1.node_WSEndpoint := fun _ => "ws://127.0.0.1:8546" |}.

(** An L1 node that cannot be started. *)
Definition geth_start_fails : l1.Geth :=
  {| l1.Now_Unix := 1700000000;
     l1.big_Uint64 := fun z => z mod 2 ^ 64;
     l1.InitL1 := fun _ _ _ _ _ _ => (1%nat, None);
     l1.node_Start := fun _ => Some port_taken;
     l1.node_Attach := fun n => n;
     l1.node_WSEndpoint := fun _ => "ws://127.0.0.1:8546" |}.

(** An L1 node that comes up. *)
Definition geth_ok : l1.Geth :=
  {| l1.Now_Unix := 1700000000;
     l1.big_Uint64 := fun z => z mod 2 ^ 64;
     l1.InitL1 := fun _ _ _ _ _ _ => (1%nat, None);
     l1.node_Start := fun _ => None;
     l1.node_Attach := fun n => n;
     l1.node_WSEndpoint := fun _ => "ws://127.0.0.1:8546" |}.

End Sample.

(* ================================================================== *)
(** ** One step of a body at a time *)

(** To show [P] of what a body returns, it is enough to show it for every
    answer the world may give to the next call, and for the rest of the
    body after that answer. *)
Section Stepping.

Variables (w : World) (tr : Trace) (P : error * Trace -> Prop).

Lemma exec_call {R : Type} (ask : World -> Trace -> R) (ev : R -> Event) k :
  (forall r, P (exec (k r) w (tr ++ [ev r])%list)) ->
  P (exec (bind (call ask ev) k) w tr).
Proof. intro H. exact (H (ask w tr)). Qed.

Lemma exec_step ev k :
  P (exec (k tt) w (tr ++ [ev])%list) -> P (exec (bind (step ev) k) w tr).
Proof. exact (fun H => H). Qed.

Lemma exec_check err wrap k :
  (forall msg, err = Some msg -> P (wrap msg, tr)) ->
  (err = None -> P (exec (k tt) w tr)) ->
  P (exec (bind (check err wrap) k) w tr).
Proof. destruct err; intros H1 H2; [apply H1 | apply H2]; reflexivity. Qed.

Lemma exec_try {A : Type} (r : result A) wrap k :
  (forall msg, r = Err msg -> P (wrap msg, tr)) ->
  (forall a, r = Ok a -> P (exec (k a) w tr)) ->
  P (exec (bind (try r wrap) k) w tr).
Proof. destruct r; intros H1 H2; [apply H2 | apply H1]; reflexivity. Qed.

Lemma exec_probe (reachable : bool) k :
  (reachable = false -> P (None, tr)) ->
  (reachable = true -> P (exec (k tt) w tr)) ->
  P (exec (bind (if negb reachable then return_ None else ret tt) k) w tr).
Proof.
  destruct reachable; intros H1 H2; [apply H2 | apply H1]; reflexivity.
Qed.

Lemma exec_invoke f k :
  P (exec (k (fst (f w tr))) w (snd (f w tr))) ->
  P (exec (bind (invoke f) k) w tr).
Proof. unfold exec, bind, invoke. destruct (f w tr); exact (fun H => H). Qed.

Lemma exec_bind_return {A : Type} e (k : A -> M error) :
  P (e, tr) -> P (exec (bind (return_ e) k) w tr).
Proof. exact (fun H => H). Qed.

Lemma exec_bind_ret {A : Type} (a : A) (k : A -> M error) :
  P (exec (k a) w tr) -> P (exec (bind (ret a) k) w tr).
Proof. exact (fun H => H). Qed.

Lemma exec_ret e : P (e, tr) -> P (exec (ret e) w tr).
Proof. exact (fun H => H). Qed.

End Stepping.

Ltac run_step :=
  lazymatch goal with
  | |- context [exec (bind (call ?ask ?ev) ?k) ?w ?tr] =>
      pattern (exec (bind (call ask ev) k) w tr); apply exec_call; intro
  | |- context [exec (bind (step ?ev) ?k) ?w ?tr] =>
      pattern (exec (bind (step ev) k) w tr); apply exec_step
  | |- context [exec (bind (check ?err ?wrap) ?k) ?w ?tr] =>
      pattern (exec (bind (check err wrap) k) w tr); apply exec_check;
      [intros ? -> | intros ->]
  | |- context [exec (bind (try ?r ?wrap) ?k) ?w ?tr] =>
      pattern (exec (bind (try r wrap) k) w tr); apply exec_try;
      [intros ? -> | intros ? ->]
  | |- context [exec (bind (if negb ?b then return_ None else ret tt) ?k)
                  ?w ?tr] =>
      pattern (exec (bind (if negb b then return_ None else ret tt) k) w tr);
      apply exec_probe; intros ->
  | |- context [exec (bind (invoke ?f) ?k) ?w ?tr] =>
      pattern (exec (bind (invoke f) k) w tr); apply exec_invoke
  | |- context [exec (bind (return_ ?e) ?k) ?w ?tr] =>
      pattern (exec (bind (return_ e) k) w tr); apply exec_bind_return
  | |- context [exec (bind (ret ?a) ?k) ?w ?tr] =>
      pattern (exec (bind (ret a) k) w tr); apply exec_bind_ret
  | |- context [exec (ret ?e) ?w ?tr] =>
      pattern (exec (ret e) w tr); apply exec_ret
  end;
  cbv beta zeta; cbn [app fst snd Errorf].

(** All ways through [Run], one goal for each of its [return]s. *)
Ltac run_all :=
  unfold Run, runMonomer, env_Go, env_DeferErr; cbv beta zeta;
  repeat run_step.

(** Going through [H : In e [e1; ...; en]], dropping the steps that are not
    of the shape of [e]. *)
Ltac in_cases H :=
  cbn [In] in H;
  repeat (destruct H as [H | H]; [try discriminate H | ]);
  try contradiction H.

(** Finding a step in a list that is written out. *)
Ltac in_list := cbn [In]; repeat first [left; reflexivity | right].

Ltac is_last :=
  lazymatch goal with
  | |- last_step ?l _ => exists (removelast l); reflexivity
  end.

Ltac does_precede :=
  cbn [precedes];
  repeat first [left; split; [reflexivity | in_list] | right].

Ltac is_adjacent :=
  cbn [adjacent];
  repeat first [left; split; reflexivity | right].

(** The funded amount [10*oneETH] is a [uint64] constant: it does not
    wrap. *)
Lemma funding_fits_uint64 : (0 <= 10 * oneETH <= uint64_max)%Z.
Proof. unfold oneETH, uint64_max. split; [lia | vm_compute; discriminate]. Qed.

(* ================================================================== *)
(** ** The readiness short-circuit *)

(** C1.  If a started service is probed and found unreachable, be it the L1
    simulator or the L2 node, then [Stack.Run] returns a nil error and the
    failed probe is the last thing it did: for the simulator the run
    consists of logging and starting the process, launching its monitor and
    the probe, and nothing else; for the L2 node no step of config
    derivation or of the dependent stack was taken. *)
Theorem Run_unreachable_returns_nil (L : Lib) (s : Stack) (w : World)
    (u : URL) :
  In (EvIsReachable u false) (snd (Run L s w [])) ->
  fst (Run L s w []) = None /\
  last_step (snd (Run L s w [])) (EvIsReachable u false) /\
  ((u = anvilURL s /\
    snd (Run L s w []) =
      [ EvLogProcess "anvil" (anvilCmd L s) None;
        EvStart (anvilCmd L s) None;
        EvGo (MonitorAnvil (anvilCmd L s) (eventListener s));
        EvIsReachable (anvilURL s) false ])
   \/
   (u = monomerEngineURL s /\
    In (EvIsReachable (anvilURL s) true) (snd (Run L s w [])) /\
    Forall (fun e => derivation_or_later e = false) (snd (Run L s w [])))).
Proof.
  run_all; intro H; in_cases H; injection H as <-.
  - split; [reflexivity | split; [is_last | left; split; reflexivity]].
  - split; [reflexivity | split; [is_last | right]].
    split; [reflexivity | split; [in_list | repeat constructor]].
Qed.

Lemma Run_unreachable_returns_nil_witness :
  (In (EvIsReachable (anvilURL Devnet.stack) false)
      (snd (Run Devnet.lib Devnet.stack Devnet.l1_down [])) /\
   fst (Run Devnet.lib Devnet.stack Devnet.l1_down []) = None) /\
  (In (EvIsReachable (monomerEngineURL Devnet.stack) false)
      (snd (Run Devnet.lib Devnet.stack Devnet.l2_down [])) /\
   fst (Run Devnet.lib Devnet.stack Devnet.l2_down []) = None).
Proof.
  split.
  - assert (H : In (EvIsReachable (anvilURL Devnet.stack) false)
                  (snd (Run Devnet.lib Devnet.stack Devnet.l1_down [])))
      by (vm_compute; in_list).
    split; [exact H | ].
    exact (proj1 (Run_unreachable_returns_nil
                    Devnet.lib Devnet.stack Devnet.l1_down _ H)).
  - assert (H : In (EvIsReachable (monomerEngineURL Devnet.stack) false)
                  (snd (Run Devnet.lib Devnet.stack Devnet.l2_down [])))
      by (vm_compute; in_list).
    split; [exact H | ].
    exact (proj1 (Run_unreachable_returns_nil
                    Devnet.lib Devnet.stack Devnet.l2_down _ H)).
Defined.

(* ================================================================== *)
(** ** Config derivation *)

(** C2.  In every run that reaches the rollup-config derivation, the hash
    passed to it is the hash the L2 node answered to the genesis-hash
    query (asked before, on the client dialled at the engine URL, and the
    only such query of the run), the last argument is the constant 1, and
    the config given to the dependent stack is the one derived so. *)
Theorem Run_derives_from_queried_hash (L : Lib) (s : Stack) (w : World)
    (d : DeployConfig) (b : Block) (h : Hash) (n : Z) (r : result RollupCfg) :
  In (EvRollupConfig d b h n r) (snd (Run L s w [])) ->
  n = 1%Z /\
  (exists rpc,
     In (EvDialContext (url_String (monomerEngineURL s)) (Ok rpc))
        (snd (Run L s w [])) /\
     precedes (EvGenesisHash (NewMonomerClient rpc) (Ok h))
              (EvRollupConfig d b h n r) (snd (Run L s w []))) /\
  (forall cl r', In (EvGenesisHash cl r') (snd (Run L s w [])) -> r' = Ok h) /\
  (forall o, In (EvNewOPStack o) (snd (Run L s w [])) ->
             r = Ok (op_rollupConfig o)).
Proof.
  run_all; intro H; in_cases H; injection H as <- <- <- <- <-.
  all: split; [reflexivity | split; [ | split]].
  all: try (eexists; split; [ | does_precede]; in_list).
  all: try (intros cl r' H; in_cases H; injection H as _ <-; reflexivity).
  all: intros o H; in_cases H; injection H as <-; reflexivity.
Qed.

Lemma Run_derives_from_queried_hash_witness :
  In (EvRollupConfig Devnet.derived Devnet.latest Devnet.genesisHash 1
        (Ok 33%nat))
     (snd (Run Devnet.lib Devnet.stack Devnet.up [])) /\
  forall cl r',
    In (EvGenesisHash cl r') (snd (Run Devnet.lib Devnet.stack Devnet.up [])) ->
    r' = Ok Devnet.genesisHash.
Proof.
  assert (H : In (EvRollupConfig Devnet.derived Devnet.latest
                    Devnet.genesisHash 1 (Ok 33%nat))
                 (snd (Run Devnet.lib Devnet.stack Devnet.up [])))
    by (vm_compute; in_list).
  split; [exact H | ].
  exact (proj1 (proj2 (proj2 (Run_derives_from_queried_hash
                                Devnet.lib Devnet.stack Devnet.up _ _ _ _ _ H)))).
Defined.

(** C3.  In every run that reaches the rollup-config derivation, whatever
    template was loaded, the deploy config has L1 chain ID 31337 from the
    store on: when it is handed to [SetDeployments], and, as that method
    leaves the field alone, when the rollup config is derived from it.
    No other value is ever stored into the field. *)
Theorem Run_forces_L1ChainID (L : Lib) (s : Stack) (w : World)
    (d : DeployConfig) (b : Block) (h : Hash) (n : Z) (r : result RollupCfg) :
  In (EvRollupConfig d b h n r) (snd (Run L s w [])) ->
  exists tmpl d0 l1d,
    In (EvNewDeployConfigWithNetwork
          networkName (filepath_Join L [contractsRootDir s; "deploy-config"])
          (Ok tmpl))
       (snd (Run L s w [])) /\
    In (EvSetDeployments d0 l1d) (snd (Run L s w [])) /\
    d = SetDeployments L d0 l1d /\
    L1ChainID d0 = 31337%Z /\
    ((forall x l, L1ChainID (SetDeployments L x l) = L1ChainID x) ->
     L1ChainID d = 31337%Z) /\
    (forall v, In (EvStoreL1ChainID v) (snd (Run L s w [])) -> v = 31337%Z).
Proof.
  run_all; intro H; in_cases H; injection H as <- <- <- <- <-.
  all: do 3 eexists.
  all: split; [in_list | split; [in_list | split; [reflexivity | ]]].
  all: split; [reflexivity | split].
  all: try (intro frame; rewrite frame; reflexivity).
  all: intros v H; in_cases H; injection H as <-; reflexivity.
Qed.

Lemma Run_forces_L1ChainID_witness :
  In (EvRollupConfig Devnet.derived Devnet.latest Devnet.genesisHash 1
        (Ok 33%nat))
     (snd (Run Devnet.lib Devnet.stack Devnet.up [])) /\
  L1ChainID Devnet.template = 900%Z /\
  L1ChainID Devnet.derived = 31337%Z.
Proof.
  assert (H : In (EvRollupConfig Devnet.derived Devnet.latest
                    Devnet.genesisHash 1 (Ok 33%nat))
                 (snd (Run Devnet.lib Devnet.stack Devnet.up [])))
    by (vm_compute; in_list).
  split; [exact H | split; [reflexivity | ]].
  destruct (Run_forces_L1ChainID Devnet.lib Devnet.stack Devnet.up _ _ _ _ _ H)
    as (tmpl & d0 & l1d & _ & _ & _ & _ & forced & _).
  apply forced. intros x l. reflexivity.
Defined.

(** C4.  In every run that reaches the rollup-config derivation, the steps
    from the loading of the deployments and of the template on are, one
    right after the other: the store of 31337 into the L1 chain ID, the
    store of the L2 chain ID 901, the injection of the loaded L1
    deployments, and the derivation.  The deploy config handed to the
    injection is the template with L1 chain ID 31337 and L2 chain ID 901
    and every other field as loaded, and the derivation is given what the
    injection makes of it.  The run has no other store, injection or
    derivation. *)
Theorem Run_overrides_in_order (L : Lib) (s : Stack) (w : World)
    (d : DeployConfig) (b : Block) (h : Hash) (n : Z) (r : result RollupCfg) :
  In (EvRollupConfig d b h n r) (snd (Run L s w [])) ->
  exists before tmpl d0 l1d after,
    snd (Run L s w []) =
      (before ++
       [ EvNewL1Deployments
           (filepath_Join L
              [contractsRootDir s; "deployments"; networkName; ".deploy"])
           (Ok l1d);
         EvNewDeployConfigWithNetwork
           networkName (filepath_Join L [contractsRootDir s; "deploy-config"])
           (Ok tmpl);
         EvStoreL1ChainID 31337;
         EvStoreL2ChainID 901;
         EvSetDeployments d0 l1d;
         EvRollupConfig d b h n r ] ++ after)%list /\
    d0 = set_L2ChainID l2ChainID (set_L1ChainID 31337 tmpl) /\
    d = SetDeployments L d0 l1d /\
    L1ChainID d0 = 31337%Z /\
    L2ChainID d0 = 901%Z /\
    d0 = {| L1ChainID := 31337;
            L2ChainID := 901;
            L1BlockTime := L1BlockTime tmpl;
            L2BlockTime := L2BlockTime tmpl;
            SequencerWindowSize := SequencerWindowSize tmpl;
            L1UseClique := L1UseClique tmpl;
            FundDevAccounts := FundDevAccounts tmpl;
            L1GenesisBlockTimestamp := L1GenesisBlockTimestamp tmpl;
            deployment_addresses := deployment_addresses tmpl |} /\
    Forall (fun e => override_or_derivation e = false) (before ++ after).
Proof.
  run_all; intro H; in_cases H; injection H as <- <- <- <- <-.
  all: do 5 eexists.
  all: split;
    [ lazymatch goal with
      | |- @eq _ ?l (?before ++ _)%list => unify before (firstn 28 l)
      end; reflexivity
    | repeat (split; [reflexivity | ]);
      cbn [firstn skipn app]; repeat constructor ].
Qed.

Lemma Run_overrides_in_order_witness :
  In (EvRollupConfig Devnet.derived Devnet.latest Devnet.genesisHash 1
        (Ok 33%nat))
     (snd (Run Devnet.lib Devnet.stack Devnet.up [])) /\
  (L1ChainID Devnet.template = 900 /\ L2ChainID Devnet.template = 902)%Z /\
  exists before after,
    snd (Run Devnet.lib Devnet.stack Devnet.up []) =
      (before ++
       [ EvNewL1Deployments
           "/optimism/packages/contracts-bedrock/deployments/hardhat/.deploy"
           (Ok Devnet.deployments);
         EvNewDeployConfigWithNetwork
           "hardhat" "/optimism/packages/contracts-bedrock/deploy-config"
           (Ok Devnet.template);
         EvStoreL1ChainID 31337;
         EvStoreL2ChainID 901;
         EvSetDeployments
           {| L1ChainID := 31337;
              L2ChainID := 901;
              L1BlockTime := 3;
              L2BlockTime := 2;
              SequencerWindowSize := 200;
              L1UseClique := true;
              FundDevAccounts := true;
              L1GenesisBlockTimestamp := 0;
              deployment_addresses := [] |}
           Devnet.deployments;
         EvRollupConfig Devnet.derived Devnet.latest Devnet.genesisHash 1
           (Ok 33%nat) ] ++ after)%list.
Proof.
  assert (H : In (EvRollupConfig Devnet.derived Devnet.latest
                    Devnet.genesisHash 1 (Ok 33%nat))
                 (snd (Run Devnet.lib Devnet.stack Devnet.up [])))
    by (vm_compute; in_list).
  split; [exact H | split; [split; reflexivity | ]].
  destruct (Run_overrides_in_order Devnet.lib Devnet.stack Devnet.up _ _ _ _ _ H)
    as (before & tmpl & d0 & l1d & after & E & _ & _ & _ & _ & F & _).
  assert (T : In (EvNewDeployConfigWithNetwork
                    "hardhat"
                    "/optimism/packages/contracts-bedrock/deploy-config"
                    (Ok tmpl))
                 (snd (Run Devnet.lib Devnet.stack Devnet.up [])))
    by (rewrite E; apply in_or_app; right; right; left; reflexivity).
  assert (D : In (EvNewL1Deployments
                    "/optimism/packages/contracts-bedrock/deployments/hardhat/.deploy"
                    (Ok l1d))
                 (snd (Run Devnet.lib Devnet.stack Devnet.up [])))
    by (rewrite E; apply in_or_app; right; left; reflexivity).
  vm_compute in T. vm_compute in D.
  repeat (destruct T as [T | T]; [try discriminate T | ]); [ | contradiction T].
  repeat (destruct D as [D | D]; [try discriminate D | ]); [ | contradiction D].
  injection T as <-. injection D as <-.
  exists before, after. rewrite E. subst d0. reflexivity.
Defined.

(* ================================================================== *)
(** ** The L1 block snapshot and the L2 genesis *)

(** C5.  Whenever the L2 node is built, the genesis time it is given is the
    timestamp of the block the simulator answered to the query for its
    latest block (number [nil]), the only block query of the run; that
    query came after the deployment script had been waited for and had
    exited without error, and the same block is the one a later derivation
    is given.  So whatever time the L1 chain is not younger than, the L2
    genesis is not younger than either. *)
Theorem Run_genesis_time_is_L1_snapshot (L : Lib) (s : Stack) (w : World)
    (n : Node) :
  In (EvNodeNew n) (snd (Run L s w [])) ->
  exists k cl blk,
    precedes (EvWait (forgeCmd L s k) None)
             (EvBlockByNumber cl None (Ok blk)) (snd (Run L s w [])) /\
    precedes (EvBlockByNumber cl None (Ok blk)) (EvNodeNew n)
             (snd (Run L s w [])) /\
    Time_of (n_genesis n) = block_Time blk /\
    (forall cl' num r',
       In (EvBlockByNumber cl' num r') (snd (Run L s w [])) ->
       num = None /\ r' = Ok blk) /\
    (forall d b h m r,
       In (EvRollupConfig d b h m r) (snd (Run L s w [])) -> b = blk) /\
    (forall l1GenesisTime,
       (l1GenesisTime <= block_Time blk)%Z ->
       (l1GenesisTime <= Time_of (n_genesis n))%Z).
Proof.
  run_all; intro H; in_cases H; injection H as <-.
  all: do 3 eexists.
  all: split; [does_precede | split; [does_precede | split; [reflexivity | ]]].
  all: split; [ | split; [ | intros t0 Ht0; exact Ht0]].
  all: try (intros cl' num r' H; in_cases H; injection H as _ <- <-;
            split; reflexivity).
  all: intros d' b' h' m' r' H; in_cases H; injection H as _ <- _ _ _;
    reflexivity.
Qed.

Lemma Run_genesis_time_is_L1_snapshot_witness :
  In (EvNodeNew Devnet.node)
     (snd (Run Devnet.lib Devnet.stack Devnet.l2_down [])) /\
  Time_of (n_genesis Devnet.node) = block_Time Devnet.latest.
Proof.
  assert (H : In (EvNodeNew Devnet.node)
                 (snd (Run Devnet.lib Devnet.stack Devnet.l2_down [])))
    by (vm_compute; in_list).
  split; [exact H | ].
  destruct (Run_genesis_time_is_L1_snapshot
              Devnet.lib Devnet.stack Devnet.l2_down Devnet.node H)
    as (k & cl & blk & _ & _ & E & only & _).
  rewrite E.
  assert (B : In (EvBlockByNumber (NewAnvilClient 4) None (Ok Devnet.latest))
                 (snd (Run Devnet.lib Devnet.stack Devnet.l2_down [])))
    by (vm_compute; in_list).
  destruct (only _ _ _ B) as [_ E']. injection E' as <-. reflexivity.
Defined.

(* ================================================================== *)
(** ** The deployment script *)

Lemma string_app_assoc (a b c : string) : (a ++ b) ++ c = a ++ b ++ c.
Proof.
  induction a as [ | x a IH]; [reflexivity | cbn; rewrite IH; reflexivity].
Qed.

Lemma Errorf_stage_text (stage cmd cause : string) :
  Errorf (stage ++ cmd ++ ": ") cause = Some (stage ++ cmd ++ ": " ++ cause).
Proof. unfold Errorf. rewrite !string_app_assoc. reflexivity. Qed.


(** C7.  The deployment script is run in the pipeline itself: the query
    for the latest L1 block is the very next step after the wait for the
    script has come back without error, the script having been started
    before, and the only task ever given to [env.Go] is the monitor of the
    simulator.  If the script cannot be started, or if the wait for it
    comes back with an error, that is the last step of the run, and the
    run returns the error whose text is "start " or "run ", the command
    line, ": " and the cause; if its output cannot be routed to the log,
    the text is "log forge process: " and the cause. *)
Theorem Run_deploys_synchronously (L : Lib) (s : Stack) (w : World) :
  (forall cl num r,
     In (EvBlockByNumber cl num r) (snd (Run L s w [])) ->
     exists k,
       precedes (EvStart (forgeCmd L s k) None) (EvWait (forgeCmd L s k) None)
                (snd (Run L s w [])) /\
       adjacent (EvWait (forgeCmd L s k) None) (EvBlockByNumber cl num r)
                (snd (Run L s w []))) /\
  (forall t, In (EvGo t) (snd (Run L s w [])) ->
             t = MonitorAnvil (anvilCmd L s) (eventListener s)) /\
  (forall c msg,
     cmd_name c = "forge" ->
     In (EvStart c (Some msg)) (snd (Run L s w [])) ->
     fst (Run L s w []) = Some ("start " ++ cmd_String L c ++ ": " ++ msg) /\
     last_step (snd (Run L s w [])) (EvStart c (Some msg))) /\
  (forall c msg,
     In (EvWait c (Some msg)) (snd (Run L s w [])) ->
     cmd_name c = "forge" /\
     fst (Run L s w []) = Some ("run " ++ cmd_String L c ++ ": " ++ msg) /\
     last_step (snd (Run L s w [])) (EvWait c (Some msg))) /\
  (forall name c msg,
     In (EvLogProcess name c (Some msg)) (snd (Run L s w [])) ->
     name = "forge" ->
     fst (Run L s w []) = Some ("log forge process: " ++ msg) /\
     last_step (snd (Run L s w [])) (EvLogProcess name c (Some msg))).
Proof.
  run_all.
  all: split;
    [ intros cl' num' r' H; in_cases H; injection H as <- <- <-;
      (eexists; split; [does_precede | is_adjacent])
    | split;
      [ intros t H; in_cases H; injection H as <-; reflexivity
      | split;
        [ intros c msg' Hc H; in_cases H; injection H as <- <-;
          first [ discriminate Hc
                | split; [apply Errorf_stage_text | is_last] ]
        | split;
          [ intros c msg' H; in_cases H; injection H as <- <-;
            (split; [reflexivity
                    | split; [apply Errorf_stage_text | is_last]])
          | intros name c msg' H Hn; in_cases H; injection H as <- <- <-;
            first [ discriminate Hn | split; [reflexivity | is_last] ] ] ] ] ].
Qed.

Lemma Run_deploys_synchronously_witness :
  (cmd_name Devnet.forge = "forge" /\
   In (EvStart Devnet.forge (Some "executable file not found in $PATH"))
      (snd (Run Devnet.lib Devnet.stack Devnet.forge_missing [])) /\
   fst (Run Devnet.lib Devnet.stack Devnet.forge_missing [])
   = Some "start forge script --root /optimism/packages/contracts-bedrock -vvv /optimism/packages/contracts-bedrock/scripts/Deploy.s.sol:Deploy --rpc-url ws://127.0.0.1:8545 --broadcast --private-key 2a: executable file not found in $PATH") /\
  (In (EvWait Devnet.forge (Some "exit status 1"))
      (snd (Run Devnet.lib Devnet.stack Devnet.forge_fails [])) /\
   fst (Run Devnet.lib Devnet.stack Devnet.forge_fails [])
   = Some "run forge script --root /optimism/packages/contracts-bedrock -vvv /optimism/packages/contracts-bedrock/scripts/Deploy.s.sol:Deploy --rpc-url ws://127.0.0.1:8545 --broadcast --private-key 2a: exit status 1").
Proof.
  assert (N : cmd_name Devnet.forge = "forge") by reflexivity.
  assert (S : In (EvStart Devnet.forge
                    (Some "executable file not found in $PATH"))
                 (snd (Run Devnet.lib Devnet.stack Devnet.forge_missing [])))
    by (vm_compute; in_list).
  assert (W : In (EvWait Devnet.forge (Some "exit status 1"))
                 (snd (Run Devnet.lib Devnet.stack Devnet.forge_fails [])))
    by (vm_compute; in_list).
  split.
  - split; [exact N | split; [exact S | ]].
    destruct (Run_deploys_synchronously
                Devnet.lib Devnet.stack Devnet.forge_missing)
      as (_ & _ & start & _).
    exact (proj1 (start _ _ N S)).
  - split; [exact W | ].
    destruct (Run_deploys_synchronously
                Devnet.lib Devnet.stack Devnet.forge_fails)
      as (_ & _ & _ & wait & _).
    exact (proj1 (proj2 (wait _ _ W))).
Defined.

(* ================================================================== *)
(** ** The test key *)

Lemma forgeCmd_private_key (L : Lib) (s : Stack) (k : PrivateKey) :
  exists args,
    cmd_args (forgeCmd L s k)
    = (args ++ ["--private-key"; Bytes2Hex L (FromECDSA L k)])%list.
Proof.
  exists (removelast (removelast (cmd_args (forgeCmd L s k)))). reflexivity.
Qed.

(** C8.  A run generates at most one key, and exactly one, with success,
    in every run that funds, deploys or launches the dependent stack.
    That key is the one whose address is funded (with ten ether) by the
    set-balance call, the one whose hex encoding follows [--private-key]
    on the command line of the deployment script, and the one handed to
    the dependent stack. *)
Theorem Run_uses_one_key (L : Lib) (s : Stack) (w : World) :
  (length (generated_keys (snd (Run L s w []))) <= 1)%nat /\
  (forall cl a amount r,
     In (EvSetBalance cl a amount r) (snd (Run L s w [])) ->
     exists k,
       generated_keys (snd (Run L s w [])) = [Ok k] /\
       a = PubkeyToAddress L (PublicKey_of k) /\
       amount = (10 * oneETH)%Z) /\
  (forall c r,
     cmd_name c = "forge" ->
     In (EvStart c r) (snd (Run L s w [])) ->
     exists k,
       generated_keys (snd (Run L s w [])) = [Ok k] /\
       c = forgeCmd L s k /\
       exists args,
         cmd_args c
         = (args ++ ["--private-key"; Bytes2Hex L (FromECDSA L k)])%list) /\
  (forall o,
     In (EvNewOPStack o) (snd (Run L s w [])) ->
     exists k,
       generated_keys (snd (Run L s w [])) = [Ok k] /\
       op_privKey o = k).
Proof.
  run_all.
  all: remember (10 * oneETH)%Z as funding eqn:Efunding.
  all: split;
    [ cbn [generated_keys flat_map app length]; lia
    | split;
      [ intros cl' a' amount' r' H; in_cases H; injection H as <- <- <- <-;
        (eexists; split; [reflexivity | split; reflexivity])
      | split;
        [ intros c r' Hc H; in_cases H; injection H as <- <-;
          first [ discriminate Hc
                | eexists; split;
                  [reflexivity
                  | split; [reflexivity | apply forgeCmd_private_key]] ]
        | intros o H; in_cases H; injection H as <-;
          (eexists; split; reflexivity) ] ] ].
Qed.

Lemma Run_uses_one_key_witness :
  (cmd_name Devnet.forge = "forge" /\
   In (EvStart Devnet.forge None)
      (snd (Run Devnet.lib Devnet.stack Devnet.up [])) /\
   In (EvNewOPStack Devnet.opstack)
      (snd (Run Devnet.lib Devnet.stack Devnet.up []))) /\
  generated_keys (snd (Run Devnet.lib Devnet.stack Devnet.up []))
  = [Ok (op_privKey Devnet.opstack)] /\
  Devnet.forge = forgeCmd Devnet.lib Devnet.stack (op_privKey Devnet.opstack).
Proof.
  assert (N : cmd_name Devnet.forge = "forge") by reflexivity.
  assert (S : In (EvStart Devnet.forge None)
                 (snd (Run Devnet.lib Devnet.stack Devnet.up [])))
    by (vm_compute; in_list).
  assert (O : In (EvNewOPStack Devnet.opstack)
                 (snd (Run Devnet.lib Devnet.stack Devnet.up [])))
    by (vm_compute; in_list).
  split; [split; [exact N | split; [exact S | exact O]] | ].
  destruct (Run_uses_one_key Devnet.lib Devnet.stack Devnet.up)
    as (_ & _ & started & launched).
  destruct (launched _ O) as (k & K & E).
  destruct (started _ _ N S) as (k' & K' & E' & _).
  rewrite K in K'. injection K' as <-. subst k.
  split; [exact K | exact E'].
Defined.

(* ================================================================== *)
(** ** The L2 chain ID *)

(** C9.  The chain ID in the genesis given to the L2 node is 901 in every
    run, and so is the one the test app is created with; 901 is the only
    value ever stored into the deploy config's L2 chain ID.  Hence the
    deploy config handed to [SetDeployments] carries the chain ID of the
    node that was started before, and, as that method leaves the field
    alone, so does the deploy config the rollup config is derived from. *)
Theorem Run_aligns_L2_chain_id (L : Lib) (s : Stack) (w : World) :
  (forall n, In (EvNodeNew n) (snd (Run L s w [])) ->
             ChainID_of (n_genesis n) = 901%Z) /\
  (forall db cid r, In (EvTestappNew db cid r) (snd (Run L s w [])) ->
                    cid = ChainID_String L 901%Z) /\
  (forall v, In (EvStoreL2ChainID v) (snd (Run L s w [])) -> v = 901%Z) /\
  (forall d0 l,
     In (EvSetDeployments d0 l) (snd (Run L s w [])) ->
     exists n,
       precedes (EvNodeRun n None) (EvSetDeployments d0 l)
                (snd (Run L s w [])) /\
       L2ChainID d0 = ChainID_of (n_genesis n)) /\
  (forall d b h m r,
     In (EvRollupConfig d b h m r) (snd (Run L s w [])) ->
     (forall x l, L2ChainID (SetDeployments L x l) = L2ChainID x) ->
     exists n,
       precedes (EvNodeRun n None) (EvRollupConfig d b h m r)
                (snd (Run L s w [])) /\
       L2ChainID d = ChainID_of (n_genesis n)).
Proof.
  run_all.
  all: split;
    [ intros n H; in_cases H; injection H as <-; reflexivity
    | split;
      [ intros db cid r' H; in_cases H; injection H as _ <- _; reflexivity
      | split;
        [ intros v H; in_cases H; injection H as <-; reflexivity
        | split;
          [ intros d0 l H; in_cases H; injection H as <- <-;
            (eexists; split; [does_precede | reflexivity])
          | intros d b h m r' H frame; in_cases H;
            injection H as <- <- <- <- <-;
            (eexists; split; [does_precede | rewrite frame; reflexivity])
          ] ] ] ].
Qed.

Lemma Run_aligns_L2_chain_id_witness :
  In (EvRollupConfig Devnet.derived Devnet.latest Devnet.genesisHash 1
        (Ok 33%nat))
     (snd (Run Devnet.lib Devnet.stack Devnet.up [])) /\
  (forall x l, L2ChainID (SetDeployments Devnet.lib x l) = L2ChainID x) /\
  exists n,
    precedes (EvNodeRun n None)
             (EvRollupConfig Devnet.derived Devnet.latest Devnet.genesisHash 1
                (Ok 33%nat))
             (snd (Run Devnet.lib Devnet.stack Devnet.up [])) /\
    L2ChainID Devnet.derived = ChainID_of (n_genesis n).
Proof.
  assert (H : In (EvRollupConfig Devnet.derived Devnet.latest
                    Devnet.genesisHash 1 (Ok 33%nat))
                 (snd (Run Devnet.lib Devnet.stack Devnet.up [])))
    by (vm_compute; in_list).
  assert (F : forall x l,
             L2ChainID (SetDeployments Devnet.lib x l) = L2ChainID x)
    by (intros x l; reflexivity).
  split; [exact H | split; [exact F | ]].
  destruct (Run_aligns_L2_chain_id Devnet.lib Devnet.stack Devnet.up)
    as (_ & _ & _ & _ & derived).
  exact (derived _ _ _ _ _ H F).
Defined.

(* ================================================================== *)
(** ** The listeners of the L2 node *)

(** C10.  The first listener a run asks for is always on ["127.0.0.1:0"],
    whatever the stack holds.  Whenever the node is built, the run has
    asked for exactly three listeners, in this order: that one, which
    becomes the engine HTTP listener, one on the host of the configured
    engine URL, which becomes the engine WebSocket listener, and one on the
    host of the configured comet URL, which becomes the comet listener.
    The step right after the node has started is the probe of the
    configured engine URL, and no run probes anything but the simulator
    URL and the engine URL. *)
Theorem Run_binds_engine_http_locally (L : Lib) (s : Stack) (w : World) :
  (forall l rest, listens (snd (Run L s w [])) = l :: rest ->
                  fst l = ("tcp", "127.0.0.1:0")) /\
  (forall n,
     In (EvNodeNew n) (snd (Run L s w [])) ->
     listens (snd (Run L s w [])) =
       [ ("tcp", "127.0.0.1:0", Ok (n_engineHTTP n));
         ("tcp", url_Host (monomerEngineURL s), Ok (n_engineWS n));
         ("tcp", url_Host (monomerCometURL s), Ok (n_cometListener n)) ]) /\
  (forall n,
     In (EvNodeRun n None) (snd (Run L s w [])) ->
     exists reachable,
       adjacent (EvNodeRun n None)
                (EvIsReachable (monomerEngineURL s) reachable)
                (snd (Run L s w []))) /\
  (forall u r, In (EvIsReachable u r) (snd (Run L s w [])) ->
               u = anvilURL s \/ u = monomerEngineURL s).
Proof.
  run_all.
  all: split;
    [ cbn [listens flat_map app]; intros l rest H;
      first [discriminate H | injection H as <- _; reflexivity]
    | split;
      [ intros n H; in_cases H; injection H as <-; reflexivity
      | split;
        [ intros n H; in_cases H; injection H as <-;
          (eexists; is_adjacent)
        | intros u r' H; in_cases H; injection H as <- _; tauto ] ] ].
Qed.

Lemma Run_binds_engine_http_locally_witness :
  In (EvNodeNew Devnet.node)
     (snd (Run Devnet.lib Devnet.stack Devnet.up [])) /\
  listens (snd (Run Devnet.lib Devnet.stack Devnet.up [])) =
    [ ("tcp", "127.0.0.1:0", Ok 11%nat);
      ("tcp", "127.0.0.1:8889", Ok 12%nat);
      ("tcp", "127.0.0.1:8890", Ok 13%nat) ].
Proof.
  assert (H : In (EvNodeNew Devnet.node)
                 (snd (Run Devnet.lib Devnet.stack Devnet.up [])))
    by (vm_compute; in_list).
  split; [exact H | ].
  destruct (Run_binds_engine_http_locally Devnet.lib Devnet.stack Devnet.up)
    as (_ & built & _).
  exact (built _ H).
Defined.

(* ================================================================== *)
(** ** Two worlds that answer the pipeline alike *)

Section Agreeing.

Variables (w1 w2 : World) (tr : Trace).

Lemma agree_call {R : Type} (ask : World -> Trace -> R) (ev : R -> Event) k :
  ask w1 tr = ask w2 tr ->
  (forall r, exec (k r) w1 (tr ++ [ev r])%list
             = exec (k r) w2 (tr ++ [ev r])%list) ->
  exec (bind (call ask ev) k) w1 tr = exec (bind (call ask ev) k) w2 tr.
Proof.
  intros E H. unfold exec, bind, call in *. rewrite E. apply H.
Qed.

Lemma agree_step ev k :
  exec (k tt) w1 (tr ++ [ev])%list = exec (k tt) w2 (tr ++ [ev])%list ->
  exec (bind (step ev) k) w1 tr = exec (bind (step ev) k) w2 tr.
Proof. exact (fun H => H). Qed.

Lemma agree_check err wrap k :
  (err = None -> exec (k tt) w1 tr = exec (k tt) w2 tr) ->
  exec (bind (check err wrap) k) w1 tr = exec (bind (check err wrap) k) w2 tr.
Proof. destruct err; intro H; [reflexivity | exact (H eq_refl)]. Qed.

Lemma agree_try {A : Type} (r : result A) wrap k :
  (forall a, r = Ok a -> exec (k a) w1 tr = exec (k a) w2 tr) ->
  exec (bind (try r wrap) k) w1 tr = exec (bind (try r wrap) k) w2 tr.
Proof. destruct r; intro H; [exact (H a eq_refl) | reflexivity]. Qed.

Lemma agree_probe (reachable : bool) k :
  (reachable = true -> exec (k tt) w1 tr = exec (k tt) w2 tr) ->
  exec (bind (if negb reachable then return_ None else ret tt) k) w1 tr
  = exec (bind (if negb reachable then return_ None else ret tt) k) w2 tr.
Proof. destruct reachable; intro H; [exact (H eq_refl) | reflexivity]. Qed.

Lemma agree_invoke f (k : error -> M error) :
  f w1 tr = f w2 tr ->
  (forall e tr', exec (k e) w1 tr' = exec (k e) w2 tr') ->
  exec (bind (invoke f) k) w1 tr = exec (bind (invoke f) k) w2 tr.
Proof.
  intros E H. unfold exec, bind, invoke in *. rewrite E.
  destruct (f w2 tr) as [e tr']. apply H.
Qed.

End Agreeing.

Ltac agree_next :=
  first
    [ apply agree_call; [reflexivity | intro]
    | apply agree_step
    | apply agree_check; intros ->
    | apply agree_try; intros ? ->
    | apply agree_probe; intros ->
    | reflexivity ];
  cbv beta zeta.

(** [runMonomer] waits for no process. *)
Lemma runMonomer_whatever_exit (L : Lib) (s : Stack) (t id : Z) (c : Cmd)
    (f : Trace -> error) (w : World) (tr : Trace) :
  runMonomer L s t id (with_exit_of c f w) tr = runMonomer L s t id w tr.
Proof.
  unfold runMonomer, env_Go, env_DeferErr. cbv beta zeta.
  repeat agree_next.
Qed.

(** [Run] waits for the deployment script only: how and when the simulator
    exits changes neither what it returns nor what it does. *)
Lemma Run_whatever_anvil_exit (L : Lib) (s : Stack) (f : Trace -> error)
    (w : World) :
  Run L s (with_exit_of (anvilCmd L s) f w) [] = Run L s w [].
Proof.
  unfold Run, env_Go, env_DeferErr. cbv beta zeta.
  repeat first
    [ apply agree_invoke;
      [ apply runMonomer_whatever_exit | intros [msg | ] tr'; cbv beta zeta ]
    | agree_next ].
Qed.

(* ================================================================== *)
(** ** The monitor of the simulator *)

(** C6.  Once the simulator has been started, the very next step of the
    run hands [env.Go] the task that waits for its exit, and that is the
    only background task of the run; the pipeline itself waits for the
    deployment script only.  When the task's wait comes back with an
    error, the task delivers [OnAnvilErr] on the stack's listener with a
    non-nil error naming the command and the cause; when it comes back
    without, it delivers nothing.  How and when the simulator exits
    changes neither the value [Stack.Run] returns nor any step it takes. *)
Theorem Run_monitors_anvil_in_background (L : Lib) (s : Stack) (w : World) :
  (In (EvStart (anvilCmd L s) None) (snd (Run L s w [])) ->
   background_tasks (snd (Run L s w []))
   = [MonitorAnvil (anvilCmd L s) (eventListener s)] /\
   adjacent (EvStart (anvilCmd L s) None)
            (EvGo (MonitorAnvil (anvilCmd L s) (eventListener s)))
            (snd (Run L s w []))) /\
  (forall c r, In (EvWait c r) (snd (Run L s w [])) -> cmd_name c = "forge") /\
  (forall tr msg,
     cmd_Wait w tr (anvilCmd L s) = Some msg ->
     runTask L (MonitorAnvil (anvilCmd L s) (eventListener s)) w tr
     = [OnAnvilErr (eventListener s)
          (Errorf ("run " ++ cmd_String L (anvilCmd L s) ++ ": ") msg)] /\
     Errorf ("run " ++ cmd_String L (anvilCmd L s) ++ ": ") msg <> None) /\
  (forall tr,
     cmd_Wait w tr (anvilCmd L s) = None ->
     runTask L (MonitorAnvil (anvilCmd L s) (eventListener s)) w tr = []) /\
  (forall f, Run L s (with_exit_of (anvilCmd L s) f w) [] = Run L s w []).
Proof.
  split; [ | split; [ | split; [ | split]]].
  - run_all; intro H; in_cases H; clear H; (split; [reflexivity | is_adjacent]).
  - run_all; intros c r' H; in_cases H; injection H as <- _; reflexivity.
  - intros tr msg E. unfold runTask. rewrite E.
    split; [reflexivity | discriminate].
  - intros tr E. unfold runTask. rewrite E. reflexivity.
  - intro f. apply Run_whatever_anvil_exit.
Qed.

Lemma Run_monitors_anvil_in_background_witness :
  (In (EvStart (anvilCmd Devnet.lib Devnet.stack) None)
      (snd (Run Devnet.lib Devnet.stack Devnet.anvil_dies [])) /\
   cmd_Wait Devnet.anvil_dies [] (anvilCmd Devnet.lib Devnet.stack)
   = Some "exit status 1") /\
  background_tasks (snd (Run Devnet.lib Devnet.stack Devnet.anvil_dies []))
  = [MonitorAnvil (anvilCmd Devnet.lib Devnet.stack)
       (eventListener Devnet.stack)] /\
  runTask Devnet.lib
    (MonitorAnvil (anvilCmd Devnet.lib Devnet.stack)
       (eventListener Devnet.stack))
    Devnet.anvil_dies []
  = [OnAnvilErr (eventListener Devnet.stack)
       (Errorf
          ("run " ++ cmd_String Devnet.lib (anvilCmd Devnet.lib Devnet.stack)
           ++ ": ")
          "exit status 1")] /\
  Run Devnet.lib Devnet.stack Devnet.anvil_dies []
  = Run Devnet.lib Devnet.stack Devnet.up [].
Proof.
  assert (S : In (EvStart (anvilCmd Devnet.lib Devnet.stack) None)
                 (snd (Run Devnet.lib Devnet.stack Devnet.anvil_dies [])))
    by (vm_compute; in_list).
  assert (W : cmd_Wait Devnet.anvil_dies []
                (anvilCmd Devnet.lib Devnet.stack) = Some "exit status 1")
    by reflexivity.
  split; [split; [exact S | exact W] | ].
  destruct (Run_monitors_anvil_in_background
              Devnet.lib Devnet.stack Devnet.anvil_dies)
    as (launched & _ & dies & _ & _).
  split; [exact (proj1 (launched S)) | ].
  split; [exact (proj1 (dies _ _ W)) | ].
  destruct (Run_monitors_anvil_in_background
              Devnet.lib Devnet.stack Devnet.up)
    as (_ & _ & _ & _ & same).
  exact (same (fun _ => Some "exit status 1")).
Defined.

(* ================================================================== *)
(** ** What a return of [Run] means *)

(** X1.  [Stack.Run] returns nil in exactly two situations: its last step
    was a probe that found a service unreachable, or its last step was
    the run of the dependent stack, which returned nil. *)
Theorem Run_nil_return (L : Lib) (s : Stack) (w : World) :
  fst (Run L s w []) = None <->
  exists e, final_step (snd (Run L s w [])) = Some e /\ ends_quietly e = true.
Proof.
  run_all; remember (10 * oneETH)%Z as funding eqn:Efunding;
    cbn [final_step];
    (split;
     [ intro H; first [discriminate H | eexists; split; reflexivity]
     | intros (e & E & Q); injection E as <-;
       first [discriminate Q | reflexivity] ]).
Qed.

Lemma Run_nil_return_witness :
  (exists e,
     final_step (snd (Run Devnet.lib Devnet.stack Devnet.l1_down [])) = Some e
     /\ ends_quietly e = true) /\
  fst (Run Devnet.lib Devnet.stack Devnet.l1_down []) = None.
Proof.
  assert (H : exists e,
             final_step (snd (Run Devnet.lib Devnet.stack Devnet.l1_down []))
             = Some e /\ ends_quietly e = true)
    by (eexists; split; [vm_compute; reflexivity | reflexivity]).
  split; [exact H | ].
  exact (proj2 (Run_nil_return Devnet.lib Devnet.stack Devnet.l1_down) H).
Defined.



(** X3.  Each process is started right after its output has been routed
    to the log named after it, and waited for, if at all, right after it
    has started; the only processes are [anvil] and [forge]. *)
Theorem Run_logs_then_starts_then_waits (L : Lib) (s : Stack) (w : World) :
  (forall c r,
     In (EvStart c r) (snd (Run L s w [])) ->
     adjacent (EvLogProcess (cmd_name c) c None) (EvStart c r)
              (snd (Run L s w []))) /\
  (forall c r,
     In (EvWait c r) (snd (Run L s w [])) ->
     adjacent (EvStart c None) (EvWait c r) (snd (Run L s w []))) /\
  (forall name c r,
     In (EvLogProcess name c r) (snd (Run L s w [])) ->
     name = cmd_name c /\ (name = "anvil" \/ name = "forge")).
Proof.
  run_all.
  all: split;
    [ intros c r' H; in_cases H; injection H as <- <-; is_adjacent
    | split;
      [ intros c r' H; in_cases H; injection H as <- <-; is_adjacent
      | intros name c r' H; in_cases H; injection H as <- <- <-;
        (split; [reflexivity | tauto]) ] ].
Qed.

Lemma Run_logs_then_starts_then_waits_witness :
  In (EvStart Devnet.forge None)
     (snd (Run Devnet.lib Devnet.stack Devnet.up [])) /\
  adjacent (EvLogProcess "forge" Devnet.forge None)
           (EvStart Devnet.forge None)
           (snd (Run Devnet.lib Devnet.stack Devnet.up [])).
Proof.
  assert (H : In (EvStart Devnet.forge None)
                 (snd (Run Devnet.lib Devnet.stack Devnet.up [])))
    by (vm_compute; in_list).
  split; [exact H | ].
  exact (proj1 (Run_logs_then_starts_then_waits
                  Devnet.lib Devnet.stack Devnet.up) _ _ H).
Defined.

(** X4.  [Stack.Run] dials a service only as the very next step after a
    probe has found that service reachable, and the balance and block
    requests go through the client dialled at the simulator URL. *)
Theorem Run_dials_after_probe (L : Lib) (s : Stack) (w : World) :
  (forall url r,
     In (EvDialContext url r) (snd (Run L s w [])) ->
     exists u,
       url = url_String u /\
       adjacent (EvIsReachable u true) (EvDialContext url r)
                (snd (Run L s w []))) /\
  (forall cl a amount r,
     In (EvSetBalance cl a amount r) (snd (Run L s w [])) ->
     precedes (EvDialContext (url_String (anvilURL s)) (Ok (anvil_rpc cl)))
              (EvSetBalance cl a amount r) (snd (Run L s w []))) /\
  (forall cl num r,
     In (EvBlockByNumber cl num r) (snd (Run L s w [])) ->
     precedes (EvDialContext (url_String (anvilURL s)) (Ok (anvil_rpc cl)))
              (EvBlockByNumber cl num r) (snd (Run L s w []))).
Proof.
  run_all.
  all: remember (10 * oneETH)%Z as funding eqn:Efunding.
  all: split;
    [ intros url r' H; in_cases H; injection H as <- <-;
      (eexists; split; [reflexivity | is_adjacent])
    | split;
      [ intros cl a' amount r' H; in_cases H; injection H as <- <- <- <-;
        does_precede
      | intros cl num r' H; in_cases H; injection H as <- <- <-;
        does_precede ] ].
Qed.

Lemma Run_dials_after_probe_witness :
  In (EvDialContext "ws://127.0.0.1:8889" (Ok 26%nat))
     (snd (Run Devnet.lib Devnet.stack Devnet.up [])) /\
  exists u,
    "ws://127.0.0.1:8889" = url_String u /\
    adjacent (EvIsReachable u true)
             (EvDialContext "ws://127.0.0.1:8889" (Ok 26%nat))
             (snd (Run Devnet.lib Devnet.stack Devnet.up [])).
Proof.
  assert (H : In (EvDialContext "ws://127.0.0.1:8889" (Ok 26%nat))
                 (snd (Run Devnet.lib Devnet.stack Devnet.up [])))
    by (vm_compute; in_list).
  split; [exact H | ].
  exact (proj1 (Run_dials_after_probe Devnet.lib Devnet.stack Devnet.up)
           _ _ H).
Defined.

(** X5.  The dependent stack is built from the simulator, engine and
    op-node URLs of the stack and its listener, and from the output-oracle
    address of the very deployments that were loaded and injected into the
    deploy config; it is run at once, that run is the last step, and its
    error, if any, is returned under "run the op stack: ". *)
Theorem Run_launches_dependent_stack (L : Lib) (s : Stack) (w : World)
    (o : OPStack) :
  In (EvNewOPStack o) (snd (Run L s w [])) ->
  exists l1d d0 r,
    In (EvNewL1Deployments
          (filepath_Join L
             [contractsRootDir s; "deployments"; networkName; ".deploy"])
          (Ok l1d))
       (snd (Run L s w [])) /\
    In (EvSetDeployments d0 l1d) (snd (Run L s w [])) /\
    op_l2OutputOracle o = L2OutputOracleProxy l1d /\
    op_l1URL o = anvilURL s /\
    op_engineURL o = monomerEngineURL s /\
    op_nodeURL o = opNodeURL s /\
    op_eventListener o = eventListener s /\
    adjacent (EvNewOPStack o) (EvOPStackRun o r) (snd (Run L s w [])) /\
    final_step (snd (Run L s w [])) = Some (EvOPStackRun o r) /\
    fst (Run L s w [])
    = match r with
      | Some cause => Some ("run the op stack: " ++ cause)
      | None => None
      end.
Proof.
  run_all; intro H; in_cases H; injection H as <-.
  all: do 3 eexists.
  all: split; [in_list | split; [in_list | ]].
  all: repeat (split; [reflexivity | ]).
  all: split; [is_adjacent | split; reflexivity].
Qed.

Lemma Run_launches_dependent_stack_witness :
  In (EvNewOPStack Devnet.opstack)
     (snd (Run Devnet.lib Devnet.stack Devnet.up [])) /\
  exists l1d,
    In (EvNewL1Deployments
          "/optimism/packages/contracts-bedrock/deployments/hardhat/.deploy"
          (Ok l1d))
       (snd (Run Devnet.lib Devnet.stack Devnet.up [])) /\
    op_l2OutputOracle Devnet.opstack = L2OutputOracleProxy l1d.
Proof.
  assert (H : In (EvNewOPStack Devnet.opstack)
                 (snd (Run Devnet.lib Devnet.stack Devnet.up [])))
    by (vm_compute; in_list).
  split; [exact H | ].
  destruct (Run_launches_dependent_stack
              Devnet.lib Devnet.stack Devnet.up _ H)
    as (l1d & d0 & r & loaded & _ & oracle & _).
  exists l1d. split; [exact loaded | exact oracle].
Defined.

(** X6.  Whenever the L2 node is built, exactly three cleanups have been
    registered, in this order: the closing of the block store, of the
    transaction store and of the mempool store the node is given.  Each is
    registered right after its store is created.  When binding a listener
    fails, or when the test app cannot be created after all three
    listeners were bound, no cleanup has been registered at all. *)
Theorem Run_registers_db_cleanups (L : Lib) (s : Stack) (w : World) :
  (forall n,
     In (EvNodeNew n) (snd (Run L s w [])) ->
     deferred (snd (Run L s w [])) =
       [ ("close block db", CloseMemDB (n_blockdb n));
         ("close tx db", CloseCometMemDB (n_txdb n));
         ("close mempool db", CloseMemDB (n_mempooldb n)) ]) /\
  (forall label db,
     In (EvDeferErr label (CloseMemDB db)) (snd (Run L s w [])) ->
     adjacent (EvNewMemDB db) (EvDeferErr label (CloseMemDB db))
              (snd (Run L s w []))) /\
  (forall label db,
     In (EvDeferErr label (CloseCometMemDB db)) (snd (Run L s w [])) ->
     adjacent (EvCometNewMemDB db) (EvDeferErr label (CloseCometMemDB db))
              (snd (Run L s w []))) /\
  (forall net addr msg,
     In (EvListen net addr (Err msg)) (snd (Run L s w [])) ->
     deferred (snd (Run L s w [])) = []) /\
  (forall db cid msg,
     In (EvTestappNew db cid (Err msg)) (snd (Run L s w [])) ->
     deferred (snd (Run L s w [])) = [] /\
     length (listens (snd (Run L s w []))) = 3%nat).
Proof.
  run_all.
  all: split;
    [ intros n H; in_cases H; injection H as <-; reflexivity
    | split;
      [ intros label db H; in_cases H; injection H as <- <-; is_adjacent
      | split;
        [ intros label db H; in_cases H; injection H as <- <-; is_adjacent
        | split;
          [ intros net addr msg' H; in_cases H; reflexivity
          | intros db cid msg' H; in_cases H; (split; reflexivity) ] ] ] ].
Qed.

Lemma Run_registers_db_cleanups_witness :
  (In (EvNodeNew Devnet.node)
      (snd (Run Devnet.lib Devnet.stack Devnet.up [])) /\
   deferred (snd (Run Devnet.lib Devnet.stack Devnet.up [])) =
     [ ("close block db", CloseMemDB 16);
       ("close tx db", CloseCometMemDB 18);
       ("close mempool db", CloseMemDB 20) ]) /\
  (In (EvListen "tcp" "127.0.0.1:8889" (Err "bind: address already in use"))
      (snd (Run Devnet.lib Devnet.stack Sample.ws_busy [])) /\
   In (EvListen "tcp" "127.0.0.1:0" (Ok 11%nat))
      (snd (Run Devnet.lib Devnet.stack Sample.ws_busy [])) /\
   deferred (snd (Run Devnet.lib Devnet.stack Sample.ws_busy [])) = []).
Proof.
  assert (N : In (EvNodeNew Devnet.node)
                 (snd (Run Devnet.lib Devnet.stack Devnet.up [])))
    by (vm_compute; in_list).
  assert (B : In (EvListen "tcp" "127.0.0.1:8889"
                    (Err "bind: address already in use"))
                 (snd (Run Devnet.lib Devnet.stack Sample.ws_busy [])))
    by (vm_compute; in_list).
  assert (H : In (EvListen "tcp" "127.0.0.1:0" (Ok 11%nat))
                 (snd (Run Devnet.lib Devnet.stack Sample.ws_busy [])))
    by (vm_compute; in_list).
  split.
  - split; [exact N | ].
    exact (proj1 (Run_registers_db_cleanups
                    Devnet.lib Devnet.stack Devnet.up) _ N).
  - split; [exact B | split; [exact H | ]].
    destruct (Run_registers_db_cleanups
                Devnet.lib Devnet.stack Sample.ws_busy)
      as (_ & _ & _ & busy & _).
    exact (busy _ _ _ B).
Defined.

(** X7.  A run that gets as far as running the dependent stack has taken
    exactly the thirty-six steps of [complete_run], in that order, each
    fed with the answers of the steps before it; no run takes more. *)
Theorem Run_complete_pipeline (L : Lib) (s : Stack) (w : World) :
  (forall o r,
     In (EvOPStackRun o r) (snd (Run L s w [])) ->
     exists a, snd (Run L s w []) = complete_run L s a /\
               o = complete_opStack s a /\ r = ans_opStackRun a) /\
  (length (snd (Run L s w [])) <= 36)%nat.
Proof.
  run_all.
  all: remember (10 * oneETH)%Z as funding eqn:Efunding.
  all: split;
    [ intros o r' H; in_cases H; injection H as <- <-;
      (eexists (mkAnswers _ _ _ _ _ _ _ _ _ _ _ _ _ _ _ _ _ _);
       unfold complete_run, complete_opStack, complete_node,
         complete_deployConfig;
       cbn [ans_anvilRPC ans_key ans_latestL1Block
            ans_engineHTTP ans_engineWS ans_cometListener ans_appdb ans_app
            ans_blockdb ans_txdb ans_mempooldb ans_appState ans_monomerRPC
            ans_l2GenesisBlockHash ans_l1Deployments ans_template
            ans_rollupConfig ans_opStackRun];
       rewrite <- Efunding;
       split; [reflexivity | split; reflexivity])
    | cbn [length]; lia ].
Qed.

Lemma Run_complete_pipeline_witness :
  In (EvOPStackRun Devnet.opstack None)
     (snd (Run Devnet.lib Devnet.stack Devnet.up [])) /\
  snd (Run Devnet.lib Devnet.stack Devnet.up [])
  = complete_run Devnet.lib Devnet.stack Sample.answers /\
  exists a,
    snd (Run Devnet.lib Devnet.stack Devnet.up [])
    = complete_run Devnet.lib Devnet.stack a.
Proof.
  assert (H : In (EvOPStackRun Devnet.opstack None)
                 (snd (Run Devnet.lib Devnet.stack Devnet.up [])))
    by (vm_compute; in_list).
  split; [exact H | split; [vm_compute; reflexivity | ]].
  destruct (proj1 (Run_complete_pipeline Devnet.lib Devnet.stack Devnet.up)
              _ _ H) as (a & E & _).
  exists a. exact E.
Defined.

(* ================================================================== *)
(** ** [runMonomer] by itself *)

(** X8.  [runMonomer] returns nil exactly when its last step is the run of
    the node, which returned nil.  The node it builds has the genesis time
    and chain ID it was called with, the stack's listener, the two
    transaction adapters, and the default genesis of the app created under
    that chain ID.  Listeners are bound first: when a bind fails that is
    the last step, nothing but binds has been done, and the error names
    the first, second or third listener according to how many binds were
    tried. *)
Theorem runMonomer_outcomes (L : Lib) (s : Stack) (t id : Z) (w : World) :
  (fst (runMonomer L s t id w []) = None <->
   exists n,
     final_step (snd (runMonomer L s t id w [])) = Some (EvNodeRun n None)) /\
  (forall n,
     In (EvNodeNew n) (snd (runMonomer L s t id w [])) ->
     Time_of (n_genesis n) = t /\
     ChainID_of (n_genesis n) = id /\
     n_eventListener n = eventListener s /\
     n_adaptCosmosTxsToEthTxs n = AdaptCosmosTxsToEthTxs /\
     n_adaptPayloadTxsToCosmosTxs n = AdaptPayloadTxsToCosmosTxs /\
     (exists db,
        In (EvTestappNew db (ChainID_String L id) (Ok (n_app n)))
           (snd (runMonomer L s t id w []))) /\
     precedes (EvDefaultGenesis (n_app n) (AppState_of (n_genesis n)))
              (EvNodeNew n) (snd (runMonomer L s t id w []))) /\
  (forall net addr msg,
     In (EvListen net addr (Err msg)) (snd (runMonomer L s t id w [])) ->
     final_step (snd (runMonomer L s t id w []))
     = Some (EvListen net addr (Err msg)) /\
     length (listens (snd (runMonomer L s t id w [])))
     = length (snd (runMonomer L s t id w [])) /\
     fst (runMonomer L s t id w [])
     = Errorf
         (nth (length (listens (snd (runMonomer L s t id w []))) - 1)
            [ "set up monomer engine http listener: ";
              "set up monomer engine ws listener: ";
              "set up monomer comet listener: " ] "")
         msg).
Proof.
  unfold runMonomer, env_DeferErr; cbv beta zeta; repeat run_step.
  all: split;
    [ cbn [final_step]; split;
      [ intro H; first [discriminate H | eexists; reflexivity]
      | intros (n & E); first [discriminate E | reflexivity] ]
    | split;
      [ intros n H; in_cases H; injection H as <-;
        (repeat (split; [reflexivity | ]));
        (split; [eexists; in_list | does_precede])
      | intros net addr msg' H; in_cases H; injection H as <- <- <-;
        (split; [reflexivity | split; reflexivity]) ] ].
Qed.

Lemma runMonomer_outcomes_witness :
  (In (EvNodeNew Sample.lone_node)
      (snd (runMonomer Devnet.lib Devnet.stack 5 7 Devnet.up [])) /\
   Time_of (n_genesis Sample.lone_node) = 5%Z /\
   ChainID_of (n_genesis Sample.lone_node) = 7%Z) /\
  (In (EvListen "tcp" "127.0.0.1:8889" (Err "bind: address already in use"))
      (snd (runMonomer Devnet.lib Devnet.stack 5 7 Sample.ws_busy [])) /\
   fst (runMonomer Devnet.lib Devnet.stack 5 7 Sample.ws_busy [])
   = Some "set up monomer engine ws listener: bind: address already in use").
Proof.
  assert (N : In (EvNodeNew Sample.lone_node)
                 (snd (runMonomer Devnet.lib Devnet.stack 5 7 Devnet.up [])))
    by (vm_compute; in_list).
  assert (B : In (EvListen "tcp" "127.0.0.1:8889"
                    (Err "bind: address already in use"))
                 (snd (runMonomer Devnet.lib Devnet.stack 5 7
                         Sample.ws_busy [])))
    by (vm_compute; in_list).
  split.
  - split; [exact N | ].
    destruct (runMonomer_outcomes Devnet.lib Devnet.stack 5 7 Devnet.up)
      as (_ & built & _).
    destruct (built _ N) as (T & C & _).
    split; [exact T | exact C].
  - split; [exact B | ].
    destruct (runMonomer_outcomes Devnet.lib Devnet.stack 5 7 Sample.ws_busy)
      as (_ & _ & bind).
    destruct (bind _ _ _ B) as (_ & _ & E).
    rewrite E. vm_compute. reflexivity.
Defined.

(* ================================================================== *)
(** ** The embedded defaults of package [opdevnet] *)

(** X9.  Whenever [DefaultDeployConfig] returns a config, its sequencer
    window size is 4, whatever the embedded file said and whatever
    [SetDeployments] did, for that store comes last.  If [SetDeployments]
    writes deployment addresses only, the config also has clique off, dev
    accounts funded, L1 block time 2, L2 block time 1, the current Unix time
    (as a [uint64]; the time itself when it is not negative) as L1 genesis
    time, and the chain IDs of the embedded file. *)
Theorem DefaultDeployConfig_overrides (ForgeDump ForgeAllocs : Type)
    (L : Lib) (J : opdevnet.Json ForgeDump ForgeAllocs)
    (files : opdevnet.Embedded) (now : Z) (l : L1Deployments)
    (d : DeployConfig) :
  opdevnet.DefaultDeployConfig L J files now l = (Some d, None) ->
  SequencerWindowSize d = 4%Z /\
  (exists decoded,
     opdevnet.Unmarshal_DeployConfig J (opdevnet.deployConfigJSON files)
     = (decoded, None) /\
     (opdevnet.writes_addresses_only L ->
      L1UseClique d = false /\
      FundDevAccounts d = true /\
      L1BlockTime d = 2%Z /\
      L2BlockTime d = 1%Z /\
      L1GenesisBlockTimestamp d = to_uint64 now /\
      ((0 <= now < 2 ^ 63)%Z -> L1GenesisBlockTimestamp d = now) /\
      L1ChainID d = L1ChainID decoded /\
      L2ChainID d = L2ChainID decoded)).
Proof.
  unfold opdevnet.DefaultDeployConfig.
  destruct (opdevnet.Unmarshal_DeployConfig J (opdevnet.deployConfigJSON files))
    as [decoded [err | ]]; intro H; [discriminate H | ].
  injection H as <-.
  split; [reflexivity | ].
  exists decoded. split; [reflexivity | ].
  intro frame.
  match goal with
  | |- context [SetDeployments L ?x l] =>
      destruct (frame x l) as (F1 & F2 & F3 & F4 & _ & F6 & F7 & F8)
  end.
  cbn [SequencerWindowSize L1UseClique FundDevAccounts L1BlockTime L2BlockTime
       L1GenesisBlockTimestamp L1ChainID L2ChainID set_SequencerWindowSize].
  rewrite F1, F2, F3, F4, F6, F7, F8. cbn.
  repeat (split; [reflexivity | ]).
  split; [ | split; reflexivity].
  intros [lo hi]. unfold to_uint64. apply Z.mod_small. lia.
Qed.

Lemma DefaultDeployConfig_overrides_witness :
  opdevnet.DefaultDeployConfig Devnet.lib Sample.json_ok Sample.files
    1700000000 Devnet.deployments
  = (Some Sample.default_config, None) /\
  SequencerWindowSize Devnet.template = 200%Z /\
  SequencerWindowSize Sample.default_config = 4%Z.
Proof.
  assert (H : opdevnet.DefaultDeployConfig Devnet.lib Sample.json_ok
                Sample.files 1700000000 Devnet.deployments
              = (Some Sample.default_config, None))
    by (vm_compute; reflexivity).
  split; [exact H | split; [reflexivity | ]].
  exact (proj1 (DefaultDeployConfig_overrides
                  nat nat Devnet.lib Sample.json_ok Sample.files
                  1700000000 Devnet.deployments Sample.default_config H)).
Defined.

(** X10.  Each of the four loaders returns a nil value and an error when
    decoding its embedded file fails, and a value and a nil error when it
    succeeds: the decoded value itself for the deployments and the two
    allocations.  The error text is the loader's prefix followed by the
    text of the decoding error.  The error of [DefaultL1Allocs] wraps the
    decoding error; the errors of the other three do not wrap anything. *)
Theorem Default_loaders_errors (ForgeDump ForgeAllocs : Type)
    (L : Lib) (J : opdevnet.Json ForgeDump ForgeAllocs)
    (files : opdevnet.Embedded) (now : Z) (l : L1Deployments) :
  (* decoding failed: nil value, prefixed error *)
  (forall v cause,
     opdevnet.Unmarshal_L1Deployments J (opdevnet.l1DeploymentsJSON files)
     = (v, Some cause) ->
     opdevnet.DefaultL1Deployments J files
     = (None,
        Some (opdevnet.Plain
                ("unmarshal l1 deployments: " ++ opdevnet.Error cause)))) /\
  (forall v cause,
     opdevnet.Unmarshal_DeployConfig J (opdevnet.deployConfigJSON files)
     = (v, Some cause) ->
     opdevnet.DefaultDeployConfig L J files now l
     = (None,
        Some (opdevnet.Plain
                ("unmarshal deploy config: " ++ opdevnet.Error cause)))) /\
  (forall v cause,
     opdevnet.Unmarshal_ForgeDump J (opdevnet.l1AllocsJSON files)
     = (v, Some cause) ->
     opdevnet.DefaultL1Allocs J files
     = (None,
        Some (opdevnet.Wrapping
                ("cannot unmarshal dump: " ++ opdevnet.Error cause) cause))) /\
  (forall v cause,
     opdevnet.Unmarshal_ForgeAllocs J (opdevnet.l2AllocsJSON files)
     = (v, Some cause) ->
     opdevnet.DefaultL2Allocs J files
     = (None,
        Some (opdevnet.Plain
                ("unmarshal l2 allocs: " ++ opdevnet.Error cause)))) /\
  (* decoding succeeded: the value, nil error *)
  (forall v,
     opdevnet.Unmarshal_L1Deployments J (opdevnet.l1DeploymentsJSON files)
     = (v, None) ->
     opdevnet.DefaultL1Deployments J files = (Some v, None)) /\
  (forall v,
     opdevnet.Unmarshal_DeployConfig J (opdevnet.deployConfigJSON files)
     = (v, None) ->
     exists d, opdevnet.DefaultDeployConfig L J files now l = (Some d, None)) /\
  (forall v,
     opdevnet.Unmarshal_ForgeDump J (opdevnet.l1AllocsJSON files)
     = (v, None) ->
     opdevnet.DefaultL1Allocs J files = (Some v, None)) /\
  (forall v,
     opdevnet.Unmarshal_ForgeAllocs J (opdevnet.l2AllocsJSON files)
     = (v, None) ->
     opdevnet.DefaultL2Allocs J files = (Some v, None)) /\
  (* hence *)
  opdevnet.one_sided (opdevnet.DefaultL1Deployments J files) /\
  opdevnet.one_sided (opdevnet.DefaultDeployConfig L J files now l) /\
  opdevnet.one_sided (opdevnet.DefaultL1Allocs J files) /\
  opdevnet.one_sided (opdevnet.DefaultL2Allocs J files) /\
  (forall e, snd (opdevnet.DefaultL1Deployments J files) = Some e ->
     exists cause,
       snd (opdevnet.Unmarshal_L1Deployments J
              (opdevnet.l1DeploymentsJSON files)) = Some cause /\
       opdevnet.Error e = "unmarshal l1 deployments: " ++ opdevnet.Error cause /\
       opdevnet.Unwrap e = None) /\
  (forall e, snd (opdevnet.DefaultDeployConfig L J files now l) = Some e ->
     exists cause,
       snd (opdevnet.Unmarshal_DeployConfig J
              (opdevnet.deployConfigJSON files)) = Some cause /\
       opdevnet.Error e = "unmarshal deploy config: " ++ opdevnet.Error cause /\
       opdevnet.Unwrap e = None) /\
  (forall e, snd (opdevnet.DefaultL1Allocs J files) = Some e ->
     exists cause,
       snd (opdevnet.Unmarshal_ForgeDump J (opdevnet.l1AllocsJSON files))
       = Some cause /\
       opdevnet.Error e = "cannot unmarshal dump: " ++ opdevnet.Error cause /\
       opdevnet.Unwrap e = Some cause) /\
  (forall e, snd (opdevnet.DefaultL2Allocs J files) = Some e ->
     exists cause,
       snd (opdevnet.Unmarshal_ForgeAllocs J (opdevnet.l2AllocsJSON files))
       = Some cause /\
       opdevnet.Error e = "unmarshal l2 allocs: " ++ opdevnet.Error cause /\
       opdevnet.Unwrap e = None).
Proof.
  unfold opdevnet.DefaultL1Deployments, opdevnet.DefaultDeployConfig,
    opdevnet.DefaultL1Allocs, opdevnet.DefaultL2Allocs, opdevnet.one_sided.
  destruct (opdevnet.Unmarshal_L1Deployments J _) as [v1 [e1 | ]];
  destruct (opdevnet.Unmarshal_DeployConfig J _) as [v2 [e2 | ]];
  destruct (opdevnet.Unmarshal_ForgeDump J _) as [v3 [e3 | ]];
  destruct (opdevnet.Unmarshal_ForgeAllocs J _) as [v4 [e4 | ]];
  cbn [snd];
  repeat match goal with
         | |- _ /\ _ => split
         | |- forall v cause, (_, _) = (v, Some cause) -> _ =>
             intros ? ? H; first [discriminate H
                                 | injection H as <- <-; reflexivity]
         | |- forall v, (_, _) = (v, None) -> exists d, _ =>
             intros ? H; first [discriminate H
                               | injection H as <-; eexists; reflexivity]
         | |- forall v, (_, _) = (v, None) -> _ =>
             intros ? H; first [discriminate H
                               | injection H as <-; reflexivity]
         | |- (exists v, (Some _, None) = _) \/ _ => left; eexists; reflexivity
         | |- _ \/ (exists e, (None, Some _) = _) => right; eexists; reflexivity
         | |- forall e, None = Some e -> _ => intros ? H; discriminate H
         | |- forall e, Some _ = Some e -> _ =>
             intros ? H; injection H as <-; eexists;
             split; [reflexivity | split; reflexivity]
         end.
Qed.

Lemma Default_loaders_errors_witness :
  (opdevnet.Unmarshal_L1Deployments Sample.json_bad
     (opdevnet.l1DeploymentsJSON Sample.files)
   = (Devnet.deployments, Some Sample.truncated) /\
   opdevnet.DefaultL1Deployments Sample.json_bad Sample.files
   = (None,
      Some (opdevnet.Plain
              "unmarshal l1 deployments: unexpected end of JSON input"))) /\
  (opdevnet.Unmarshal_ForgeDump Sample.json_bad
     (opdevnet.l1AllocsJSON Sample.files)
   = (0%nat, Some Sample.truncated) /\
   opdevnet.DefaultL1Allocs Sample.json_bad Sample.files
   = (None,
      Some (opdevnet.Wrapping
              "cannot unmarshal dump: unexpected end of JSON input"
              (opdevnet.Plain "unexpected end of JSON input")))) /\
  (opdevnet.Unmarshal_ForgeAllocs Sample.json_ok
     (opdevnet.l2AllocsJSON Sample.files)
   = (2%nat, None) /\
   opdevnet.DefaultL2Allocs Sample.json_ok Sample.files = (Some 2%nat, None)).
Proof.
  destruct (Default_loaders_errors nat nat Devnet.lib Sample.json_bad
              Sample.files 0 Devnet.deployments)
    as (deployments & _ & allocs & _).
  destruct (Default_loaders_errors nat nat Devnet.lib Sample.json_ok
              Sample.files 0 Devnet.deployments)
    as (_ & _ & _ & _ & _ & _ & _ & l2 & _).
  split; [split; [reflexivity | exact (deployments _ _ eq_refl)] | ].
  split; [split; [reflexivity | exact (allocs _ _ eq_refl)] | ].
  split; [reflexivity | exact (l2 _ eq_refl)].
Defined.

(* ================================================================== *)
(** ** The in-process L1 of [ethdevnet] *)

(** X11.  [ethdevnet] first initialises the L1 with the chain ID of the
    genesis, the block time it was given, and a beacon on the same blob
    directory and block time whose genesis time is the current Unix time.
    If the initialisation fails it does nothing more and returns a nil
    client, an empty endpoint and "init geth L1: " with the cause, which
    the error wraps.  If it succeeds the node is started; if the start
    fails the result is the same under "start geth L1: ", and the node is
    never attached to.  If both succeed it returns the client and the
    endpoint of that node and a nil error.  No other outcome exists. *)
Theorem ethdevnet_outcomes (L : Lib) (G : l1.Geth) (blockTime : Z)
    (genesis : l1.CoreGenesis) :
  let r := l1.ethdevnet L G blockTime genesis in
  let blobs := filepath_Join L ["artifacts"; "blobs"] in
  let init :=
    l1.CallInitL1 (l1.big_Uint64 G (l1.Config_ChainID genesis)) blockTime
      genesis (l1.NewAdvancingClock l1.Second) blobs
      (l1.NewBeacon blobs (to_uint64 (l1.Now_Unix G)) blockTime) in
  let initialised :=
    l1.InitL1 G (l1.big_Uint64 G (l1.Config_ChainID genesis)) blockTime
      genesis (l1.NewAdvancingClock l1.Second) blobs
      (l1.NewBeacon blobs (to_uint64 (l1.Now_Unix G)) blockTime) in
  (forall node cause,
     initialised = (node, Some cause) ->
     r = ((None, "",
           Some (opdevnet.Wrapping
                   ("init geth L1: " ++ opdevnet.Error cause) cause)),
          [init])) /\
  (forall node cause,
     initialised = (node, None) ->
     l1.node_Start G node = Some cause ->
     r = ((None, "",
           Some (opdevnet.Wrapping
                   ("start geth L1: " ++ opdevnet.Error cause) cause)),
          [init; l1.CallStart node])) /\
  (forall node,
     initialised = (node, None) ->
     l1.node_Start G node = None ->
     r = ((Some (l1.node_Attach G node), l1.node_WSEndpoint G node, None),
          [init; l1.CallStart node; l1.CallAttach node;
           l1.CallWSEndpoint node])) /\
  hd_error (snd r) = Some init /\
  (snd (fst r) = None ->
   exists node,
     initialised = (node, None) /\
     l1.node_Start G node = None /\
     fst (fst r) = (Some (l1.node_Attach G node), l1.node_WSEndpoint G node) /\
     snd r = [init; l1.CallStart node; l1.CallAttach node;
              l1.CallWSEndpoint node]) /\
  (forall e,
     snd (fst r) = Some e ->
     fst (fst r) = (None, "") /\
     (forall n, ~ In (l1.CallAttach n) (snd r)) /\
     (forall n, ~ In (l1.CallWSEndpoint n) (snd r)) /\
     exists cause,
       opdevnet.Unwrap e = Some cause /\
       ((opdevnet.Error e = "init geth L1: " ++ opdevnet.Error cause /\
         (exists n, initialised = (n, Some cause)) /\
         snd r = [init]) \/
        (opdevnet.Error e = "start geth L1: " ++ opdevnet.Error cause /\
         exists n, initialised = (n, None) /\
                   l1.node_Start G n = Some cause /\
                   snd r = [init; l1.CallStart n]))).
Proof.
  cbv zeta. unfold l1.ethdevnet.
  destruct (l1.InitL1 G _ _ _ _ _ _) as [node [e1 | ]].
  - cbn.
    split; [intros n c H; injection H as <- <-; reflexivity | ].
    split; [intros n c H; discriminate H | ].
    split; [intros n H; discriminate H | ].
    split; [reflexivity | split; [intro H; discriminate H | ]].
    intros e H. injection H as <-.
    split; [reflexivity | ].
    split; [intros n [H | []]; discriminate H | ].
    split; [intros n [H | []]; discriminate H | ].
    eexists. split; [reflexivity | left].
    split; [reflexivity | split; [eexists; reflexivity | reflexivity]].
  - split; [intros n c H; discriminate H | ].
    split; [intros n c H S; injection H as <-; rewrite S; reflexivity | ].
    split; [intros n H S; injection H as <-; rewrite S; reflexivity | ].
    destruct (l1.node_Start G node) as [e2 | ] eqn:S.
    + cbn. split; [reflexivity | split; [intro H; discriminate H | ]].
      intros e H. injection H as <-.
      split; [reflexivity | ].
      split; [intros n [H | [H | []]]; discriminate H | ].
      split; [intros n [H | [H | []]]; discriminate H | ].
      eexists. split; [reflexivity | right; split; [reflexivity | ]].
      exists node. split; [reflexivity | split; [exact S | reflexivity]].
    + cbn. split; [reflexivity | split].
      * intros _. exists node.
        split; [reflexivity | split; [exact S | split; reflexivity]].
      * intros e H. discriminate H.
Qed.

Lemma ethdevnet_outcomes_witness :
  (l1.InitL1 Sample.geth_init_fails
     (l1.big_Uint64 Sample.geth_init_fails 900%Z) 2%Z (l1.mkCoreGenesis 900%Z)
     (l1.NewAdvancingClock l1.Second) "artifacts/blobs"
     (l1.NewBeacon "artifacts/blobs" 1700000000%Z 2%Z)
   = (0%nat, Some Sample.no_datadir) /\
   l1.ethdevnet Devnet.lib Sample.geth_init_fails 2%Z (l1.mkCoreGenesis 900%Z)
   = ((None, "",
       Some (opdevnet.Wrapping
               "init geth L1: mkdir artifacts/blobs: permission denied"
               Sample.no_datadir)),
      [ l1.CallInitL1 900 2%Z (l1.mkCoreGenesis 900%Z)
          (l1.NewAdvancingClock 1000000000%Z) "artifacts/blobs"
          (l1.NewBeacon "artifacts/blobs" 1700000000%Z 2%Z) ])) /\
  (l1.node_Start Sample.geth_start_fails 1%nat = Some Sample.port_taken /\
   l1.ethdevnet Devnet.lib Sample.geth_start_fails 2%Z (l1.mkCoreGenesis 900%Z)
   = ((None, "",
       Some (opdevnet.Wrapping
               "start geth L1: listen tcp 127.0.0.1:8545: bind: address already in use"
               Sample.port_taken)),
      [ l1.CallInitL1 900 2%Z (l1.mkCoreGenesis 900%Z)
          (l1.NewAdvancingClock 1000000000%Z) "artifacts/blobs"
          (l1.NewBeacon "artifacts/blobs" 1700000000%Z 2%Z);
        l1.CallStart 1%nat ])).
Proof.
  destruct (ethdevnet_outcomes Devnet.lib Sample.geth_init_fails 2
              (l1.mkCoreGenesis 900)) as (init_failed & _).
  destruct (ethdevnet_outcomes Devnet.lib Sample.geth_start_fails 2
              (l1.mkCoreGenesis 900)) as (_ & start_failed & _).
  split.
  - split; [reflexivity | exact (init_failed _ _ eq_refl)].
  - split; [reflexivity | exact (start_failed 1%nat _ eq_refl eq_refl)].
Defined.

(* ================================================================== *)
(** ** The deposit of [TestE2E] *)

(** X12.  For every [uint64] block gas limit, the L1 gas limit of the
    deposit is exactly twice its L2 gas limit, without wrapping around; it
    is never below the L2 gas limit, and above it exactly when the block
    gas limit is at least 10. *)
Theorem depositGasLimits_no_wrap (l2blockGasLimit : Z) :
  (0 <= l2blockGasLimit < 2 ^ 64)%Z ->
  let (l1GasLimit, l2GasLimit) := depositGasLimits l2blockGasLimit in
  (l1GasLimit = 2 * l2GasLimit /\
   l2GasLimit <= l1GasLimit /\
   (l2GasLimit < l1GasLimit <-> 10 <= l2blockGasLimit))%Z.
Proof.
  intros [lo hi]. unfold depositGasLimits, to_uint64.
  assert (Q : (0 <= l2blockGasLimit / 10 <= l2blockGasLimit / 10)%Z)
    by (split; [apply Z.div_pos; lia | lia]).
  assert (B : (l2blockGasLimit / 10 * 10 <= l2blockGasLimit)%Z)
    by (pose proof (Z.mul_div_le l2blockGasLimit 10); lia).
  assert (U : (l2blockGasLimit < (l2blockGasLimit / 10 + 1) * 10)%Z)
    by (pose proof (Z.mod_pos_bound l2blockGasLimit 10);
        pose proof (Z.div_mod l2blockGasLimit 10); lia).
  rewrite Z.mod_small by lia.
  split; [lia | split; [lia | split; intro H; lia]].
Qed.

Lemma depositGasLimits_no_wrap_witness :
  (0 <= 30000000 < 2 ^ 64)%Z /\
  depositGasLimits 30000000 = (6000000, 3000000)%Z /\
  (3000000 < 6000000 <-> 10 <= 30000000)%Z.
Proof.
  assert (R : (0 <= 30000000 < 2 ^ 64)%Z) by (split; [lia | reflexivity]).
  split; [exact R | split; [reflexivity | ]].
  exact (proj2 (proj2 (depositGasLimits_no_wrap 30000000 R))).
Defined.

(** X13.  The gas price of the deposit is exactly twice the suggested one
    as long as that is below 2^62 in absolute value; at 2^62 the doubling
    wraps around to the most negative [int64]. *)
Theorem depositGasPrice_doubles (p : Z) :
  ((- 2 ^ 62 <= p < 2 ^ 62)%Z -> depositGasPrice p = (2 * p)%Z) /\
  depositGasPrice (2 ^ 62) = (- 2 ^ 63)%Z.
Proof.
  split; [ | reflexivity].
  intros [lo hi]. unfold depositGasPrice, to_int64.
  rewrite Z.mod_small by lia. lia.
Qed.

Lemma depositGasPrice_doubles_witness :
  (- 2 ^ 62 <= 1000000000 < 2 ^ 62)%Z /\
  depositGasPrice 1000000000 = 2000000000%Z.
Proof.
  assert (R : (- 2 ^ 62 <= 1000000000 < 2 ^ 62)%Z)
    by (split; [discriminate | reflexivity]).
  split; [exact R | ].
  exact (proj1 (depositGasPrice_doubles 1000000000) R).
Defined.
